(** * movie.api: the authentication flow and the guarded routes

    A shallow embedding of [auth.js] (token issuance and the login route) and
    of the guarded routes of [index.js], with the statements the
    specification makes about them.

    The libraries the program calls (bcrypt, jsonwebtoken's signing
    primitive and wire encoding, MongoDB's query matcher, Mongoose's update
    casting) are collected in the class [External]: the development holds
    for every implementation of them. *)

From Stdlib Require Import ZArith Lia Ascii String List Bool.
From stdpp Require Import base option strings list gmap.

Set Warnings "-register-all".

Open Scope string_scope.
Open Scope list_scope.
Open Scope Z_scope.

(** ** JavaScript values *)

(** The values that travel through request bodies, query filters, token
    payloads and JSON responses. [VUndefined] is JavaScript's [undefined]:
    what reading a property that an object does not have evaluates to. *)
Inductive value : Type :=
  | VUndefined
  | VNull
  | VBool (b : bool)
  | VNum (n : Z)
  | VStr (s : string)
  | VArr (items : list value)
  | VObj (props : list (string * value)).

(** [!v] as JavaScript's conditionals read it. *)
Definition truthy (v : value) : bool :=
  match v with
  | VUndefined | VNull => false
  | VBool b => b
  | VNum n => negb (n =? 0)
  | VStr s => negb (String.eqb s "")
  | VArr _ | VObj _ => true
  end.

(** Property read on a property list: the first entry under the key. *)
Fixpoint prop_get (k : string) (props : list (string * value)) : value :=
  match props with
  | [] => VUndefined
  | (k', v) :: rest => if String.eqb k' k then v else prop_get k rest
  end.

(** [o.k]: [undefined] when [o] has no such property or is not an object. *)
Definition get (k : string) (o : value) : value :=
  match o with
  | VObj props => prop_get k props
  | _ => VUndefined
  end.

(** [o.k !== undefined] *)
Definition defined (v : value) : bool :=
  match v with
  | VUndefined => false
  | _ => true
  end.

(** What [JSON.stringify] keeps of a value, as the receiver parses it back:
    a property whose value is [undefined] is left out, an [undefined] array
    element becomes [null]. *)
Fixpoint stringify (v : value) : value :=
  match v with
  | VArr items =>
      VArr (List.map (fun x => match x with
                               | VUndefined => VNull
                               | _ => stringify x
                               end) items)
  | VObj props =>
      VObj (List.flat_map (fun kv => match kv with
                                     | (k, x) =>
                                         match x with
                                         | VUndefined => []
                                         | _ => [(k, stringify x)]
                                         end
                                     end) props)
  | _ => v
  end.

(** ** Results *)

Inductive Result (A E : Type) : Type :=
  | Ok (a : A)
  | Err (e : E).
Arguments Ok {A E} a.
Arguments Err {A E} e.

Definition is_ok {A E : Type} (r : Result A E) : bool :=
  match r with
  | Ok _ => true
  | Err _ => false
  end.

(** ** The data model *)

(** Modelled from the spec: [models.js] (the Mongoose schemas) is not among
    the sources. The user document carries the fields of the specification's
    data model (username, password hash, email, birthday, favourite movie
    identifiers) under the names [index.js] gives them in [Users.create] and
    in the [$push] on [FavoriteMovies]. *)
Record User : Type := mkUser {
  Username : string;
  Password : string;
  Email : string;
  Birthday : option string;
  FavoriteMovies : list string
}.

(** Modelled from the spec: [models.js] (the schema and what it makes of
    [user.toJSON()]) is not among the sources. The serialisation of a user
    identity, sections 3 and 4.2: the fields of the data model, the password
    hash excluded from any onward serialisation. *)
Definition toJSON (u : User) : value :=
  VObj ([("Username", VStr (Username u));
         ("Email", VStr (Email u))]
        ++ match Birthday u with
           | Some d => [("Birthday", VStr d)]
           | None => []
           end
        ++ [("FavoriteMovies", VArr (List.map VStr (FavoriteMovies u)))]).

(** The two collections. Movie documents are kept as JavaScript objects:
    the routes only pass them on. *)
Record Db : Type := mkDb {
  users : list User;
  movies : list value
}.

Definition with_users (db : Db) (us : list User) : Db :=
  {| users := us; movies := movies db |}.

(** ** Tokens *)

Record Header : Type := mkHeader {
  alg : string;
  typ : string
}.

(** The payload: the registered claims [sub], [iat], [exp] (seconds since
    the epoch) and the caller's own claims. *)
Record Claims : Type := mkClaims {
  sub : string;
  iat : Z;
  exp : Z;
  extra : list (string * value)
}.

Record Token : Type := mkToken {
  header : Header;
  claims : Claims;
  signature : string
}.

(** An update document of [findOneAndUpdate]. *)
Inductive UpdateOp : Type :=
  | SetFields (fields : list (string * value))
  | PushField (field : string) (v : value).

(** ** The libraries *)

Class External : Type := {
  (** [bcrypt.compareSync(plaintext, hash)] *)
  compareSync : string -> string -> bool;
  (** HMAC-SHA256 of the encoded header and payload under a key *)
  hs256 : string -> Header -> Claims -> string;
  (** the compact serialisation of a token (three base64url segments) *)
  jwt_encode : Token -> string;
  (** its parser: [None] when the string is no such serialisation *)
  jwt_decode : string -> option Token;
  (** MongoDB's matcher of a query filter against a document *)
  query_matches : list (string * value) -> value -> bool;
  (** Mongoose's casting of an update document: the change it makes to a
      user document, or the message of the error it raises *)
  cast_update : UpdateOp -> Result (User -> User) string
}.

(** ** auth.js: the token issuer *)

Inductive SignError : Type :=
  | InvalidPayload
  | InvalidOption
  | ClaimConflict.

(** The options of [jwt.sign] that [generateJWTToken] passes. *)
Record SignOptions : Type := mkSignOptions {
  subject : value;
  expiresIn : string;
  algorithm : string
}.

Definition is_digit (c : ascii) : bool :=
  (48 <=? Z.of_N (N_of_ascii c)) && (Z.of_N (N_of_ascii c) <=? 57).

(** The leading decimal number of a string and what follows it. *)
Fixpoint split_digits (s : string) (acc : Z) : Z * string :=
  match s with
  | String c rest =>
      if is_digit c
      then split_digits rest (10 * acc + (Z.of_N (N_of_ascii c) - 48))
      else (acc, s)
  | EmptyString => (acc, s)
  end.

Definition unit_seconds (u : string) : option Z :=
  if String.eqb u "s" then Some 1
  else if String.eqb u "m" then Some 60
  else if String.eqb u "h" then Some 3600
  else if String.eqb u "d" then Some 86400
  else if String.eqb u "w" then Some 604800
  else None.

(** A time span in seconds, written as jsonwebtoken reads [expiresIn]
    strings: a whole number and a one-letter unit. *)
Definition timespan (s : string) : option Z :=
  match s with
  | String c _ =>
      if is_digit c
      then let '(n, u) := split_digits s 0 in
           match unit_seconds u with
           | Some k => Some (n * k)
           | None => None
           end
      else None
  | EmptyString => None
  end.

(** The object has a property under the key, whatever its value. *)
Definition has_key (k : string) (props : list (string * value)) : bool :=
  List.existsb (fun kv => String.eqb (fst kv) k) props.

(** [jwt.sign] takes a payload whose [iat], [exp] and [nbf], where it has
    them, are numbers. *)
Definition time_claim_ok (k : string) (props : list (string * value)) : bool :=
  negb (has_key k props)
  || match prop_get k props with
     | VNum _ => true
     | _ => false
     end.

(** The payload's own [iat], which [jwt.sign] takes as the time of issue
    when it is there. *)
Definition issue_time (props : list (string * value)) (now : Z) : option Z :=
  match prop_get "iat" props with
  | VUndefined => Some now
  | VNum n => Some (if n =? 0 then now else n)
  | _ => None
  end.

Section Program.
Context `{External}.

(** [const jwtSecret = 'your_jwt_secret';] *)
Definition jwtSecret : string := "your_jwt_secret".

(** [jwt.sign(payload, secret, options)] at time [now], for the HS256
    algorithm, in the order of jsonwebtoken's checks: the payload is an
    object whose [iat], [exp] and [nbf] are numbers where it has them; it
    has no [exp] beside the [expiresIn] option; the options are valid; it
    has no [sub] beside the [subject] option. The options' subject and
    expiry become the claims [sub] and [exp]. Seconds are whole numbers in
    the range a JavaScript number counts exactly. *)
Definition jwt_sign (payload : value) (secret : string) (opts : SignOptions)
    (now : Z) : Result Token SignError :=
  match payload with
  | VObj props =>
      if negb (time_claim_ok "iat" props && time_claim_ok "exp" props
               && time_claim_ok "nbf" props)
      then Err InvalidPayload
      else if defined (prop_get "exp" props) then Err ClaimConflict
      else
        match subject opts with
        | VStr s =>
            if negb (String.eqb (algorithm opts) "HS256") then Err InvalidOption
            else
              match timespan (expiresIn opts), issue_time props now with
              | Some span, Some t =>
                  if defined (prop_get "sub" props) then Err ClaimConflict
                  else
                    let h := {| alg := algorithm opts; typ := "JWT" |} in
                    let c := {| sub := s; iat := t; exp := t + span;
                                extra := List.filter
                                           (fun kv =>
                                              negb (String.eqb (fst kv) "iat"))
                                           props |} in
                    Ok {| header := h; claims := c;
                          signature := hs256 secret h c |}
              | None, _ => Err InvalidOption
              | _, None => Err InvalidPayload
              end
        | _ => Err InvalidOption
        end
  | _ => Err InvalidPayload
  end.

(** [generateJWTToken(user)], [user] being the JSON form of the document. *)
Definition generateJWTToken (user : value) (now : Z) : Result Token SignError :=
  jwt_sign user jwtSecret
    {| subject := get "Username" user; expiresIn := "7d"; algorithm := "HS256" |}
    now.

(** ** The credential store *)

(** [Users.findOne({ Username: q })]: the first document of the collection
    with that username. [None] as the query value stands for [undefined],
    which matches no user document. *)
Definition Users_findOne (q : option string) (us : list User) : option User :=
  match q with
  | Some name => List.find (fun u => String.eqb (Username u) name) us
  | None => None
  end.

(** The collection without its first document under the username. *)
Fixpoint remove_first (name : string) (us : list User) : list User :=
  match us with
  | [] => []
  | u :: rest =>
      if String.eqb (Username u) name then rest else u :: remove_first name rest
  end.

(** [Users.findOneAndRemove({ Username: q })]: the document found (if any)
    and the collection without it. *)
Definition Users_findOneAndRemove (q : option string) (us : list User)
    : option User * list User :=
  match q with
  | Some name => (Users_findOne q us, remove_first name us)
  | None => (None, us)
  end.

(** The collection with [f] applied to its first document under the name. *)
Fixpoint update_first (name : string) (f : User -> User) (us : list User)
    : list User :=
  match us with
  | [] => []
  | u :: rest =>
      if String.eqb (Username u) name then f u :: rest
      else u :: update_first name f rest
  end.

(** [Users.findOneAndUpdate({ Username: q }, update, { new: true })]: the
    document after the update (if one was found) and the collection. *)
Definition Users_findOneAndUpdate (q : option string) (f : User -> User)
    (us : list User) : option User * list User :=
  match q with
  | Some name => (f <$> Users_findOne q us, update_first name f us)
  | None => (None, us)
  end.

(** [Movies.findOne(filter)] *)
Definition Movies_findOne (flt : list (string * value)) (ms : list value)
    : option value :=
  List.find (query_matches flt) ms.

(** ** The strategies *)

Inductive AuthError : Type :=
  | NotFound
  | InvalidCredentials
  | MalformedToken
  | BadSignature
  | Expired.

(** Modelled from the spec: [passport.js] (the two strategies) is not among
    the sources. The local strategy, section 4.2: look the record up by
    username, [NotFound] when there is none, [InvalidCredentials] when the
    password does not verify against the stored hash. *)
Definition authenticate (us : list User) (username plaintext : string)
    : Result User AuthError :=
  match Users_findOne (Some username) us with
  | None => Err NotFound
  | Some u =>
      if compareSync plaintext (Password u) then Ok u
      else Err InvalidCredentials
  end.

(** The signature of a token verifies under a secret and HS256. *)
Definition signature_verifies (secret : string) (tok : Token) : bool :=
  String.eqb (alg (header tok)) "HS256"
  && String.eqb (signature tok) (hs256 secret (header tok) (claims tok)).

(** Modelled from the spec: [passport.js] is not among the sources. The
    checks of section 4.4 on the presented token itself, in the order the
    section lists them: it parses, its signature verifies, it has not
    expired. *)
Definition validate (secret : string) (now : Z) (presented : string)
    : Result Token AuthError :=
  match jwt_decode presented with
  | None => Err MalformedToken
  | Some tok =>
      if negb (signature_verifies secret tok) then Err BadSignature
      else if exp (claims tok) <=? now then Err Expired
      else Ok tok
  end.

(** Modelled from the spec: [passport.js] is not among the sources. Token
    verification, section 4.4: the token is validated, then its subject is
    resolved to a user by a second lookup. *)
Definition verify (secret : string) (now : Z) (us : list User)
    (presented : string) : Result User AuthError :=
  match validate secret now presented with
  | Err e => Err e
  | Ok tok =>
      match Users_findOne (Some (sub (claims tok))) us with
      | Some u => Ok u
      | None => Err NotFound
      end
  end.

(** ** Express: requests, responses and routing *)

Inductive Method : Type := GET | POST | PUT | DELETE.

Definition Method_eqb (a b : Method) : bool :=
  match a, b with
  | GET, GET | POST, POST | PUT, PUT | DELETE, DELETE => true
  | _, _ => false
  end.

(** A segment of a route path: literal text, or a named parameter [:name]. *)
Inductive Seg : Type :=
  | Lit (s : string)
  | Param (name : string).

Definition lower (c : ascii) : ascii :=
  let n := Z.of_N (N_of_ascii c) in
  if (65 <=? n) && (n <=? 90) then ascii_of_N (N_of_ascii c + 32) else c.

Fixpoint lowercase (s : string) : string :=
  match s with
  | EmptyString => EmptyString
  | String c rest => String (lower c) (lowercase rest)
  end.

(** Express's matching of a request path (its segments) against a route
    path: literal segments compare without regard to case, a parameter takes
    one non-empty segment and is recorded under the name the route path
    spells. The result is [req.params]. *)
Fixpoint match_path (pat : list Seg) (segs : list string)
    : option (gmap string string) :=
  match pat, segs with
  | [], [] => Some ∅
  | Lit s :: pat', seg :: segs' =>
      if String.eqb (lowercase s) (lowercase seg) then match_path pat' segs'
      else None
  | Param x :: pat', seg :: segs' =>
      if String.eqb seg "" then None
      else match match_path pat' segs' with
           | Some ps => Some (<[x := seg]> ps)
           | None => None
           end
  | _, _ => None
  end.

(** A request: [bearer] is the credential of the [Authorization: Bearer]
    header, [None] when the header is absent or of another scheme; [user] is
    [req.user], which the guard sets. *)
Record Request : Type := mkRequest {
  method : Method;
  path : list string;
  bearer : option string;
  body : value;
  params : gmap string string;
  user : option User
}.

Definition with_params (req : Request) (ps : gmap string string) : Request :=
  {| method := method req; path := path req; bearer := bearer req;
     body := body req; params := ps; user := user req |}.

Definition with_user (req : Request) (u : User) : Request :=
  {| method := method req; path := path req; bearer := bearer req;
     body := body req; params := params req; user := Some u |}.

Inductive Body : Type :=
  | Json (v : value)
  | Text (s : string).

Record Response : Type := mkResponse {
  status : Z;
  content : Body
}.

(** [res.status(code).json(v)] *)
Definition json (code : Z) (v : value) : Response :=
  {| status := code; content := Json (stringify v) |}.

(** [res.status(code).send(text)] *)
Definition send (code : Z) (text : string) : Response :=
  {| status := code; content := Text text |}.

(** What a layer of a route's stack does with a request: pass it on
    ([next()]), answer it, or throw with nothing sent. *)
Inductive Outcome : Type :=
  | Next (req : Request)
  | Done (res : Response) (db : Db)
  | Unhandled.

(** [req.params.k] *)
Definition param_value (req : Request) (k : string) : value :=
  match params req !! k with
  | Some s => VStr s
  | None => VUndefined
  end.

(** [req.params.k] inside a string concatenation. *)
Definition param_text (req : Request) (k : string) : string :=
  match params req !! k with
  | Some s => s
  | None => "undefined"
  end.

(** [a !== b] for a string [a] and a path parameter [b]. *)
Definition strict_ne (a : string) (b : option string) : bool :=
  match b with
  | Some s => negb (String.eqb a s)
  | None => true
  end.

(** A document or [null] in a JSON body. *)
Definition doc_json (o : option User) : value :=
  match o with
  | Some u => toJSON u
  | None => VNull
  end.

Definition movie_json (o : option value) : value :=
  match o with
  | Some m => m
  | None => VNull
  end.

(** ** index.js: the handlers of the guarded routes

    The store of this model always answers, so the [catch] branches that
    forward a database failure as a 500 are entered only by an update that
    Mongoose refuses to cast. *)

(** [GET /users] *)
Definition get_users (req : Request) (db : Db) : Outcome :=
  Done (json 200 (VArr (List.map toJSON (users db)))) db.

(** [GET /users/:username] *)
Definition get_user (req : Request) (db : Db) : Outcome :=
  match Users_findOne (params req !! "username") (users db) with
  | None => Done (send 404 "User not found") db
  | Some u => Done (json 200 (toJSON u)) db
  end.

(** [PUT /users/:username] *)
Definition put_user (req : Request) (db : Db) : Outcome :=
  match user req with
  | None => Unhandled
  | Some me =>
      if strict_ne (Username me) (params req !! "username")
      then Done (send 403 "Permission denied") db
      else
        match cast_update (SetFields [("Username", get "Username" (body req));
                                      ("Password", get "Password" (body req));
                                      ("Email", get "Email" (body req));
                                      ("Birthday", get "Birthday" (body req))]) with
        | Err msg => Done (send 500 ("Error: " +:+ msg)) db
        | Ok f =>
            let '(updated, us) :=
              Users_findOneAndUpdate (params req !! "username") f (users db) in
            Done (json 200 (doc_json updated)) (with_users db us)
        end
  end.

(** [GET /movies] *)
Definition get_movies (req : Request) (db : Db) : Outcome :=
  Done (json 201 (VArr (movies db))) db.

(** The filters of the three movie lookups, as the handlers build them. *)
Definition title_filter (req : Request) : list (string * value) :=
  [("Title", param_value req "Title")].

Definition genre_filter (req : Request) : list (string * value) :=
  [("Genre", param_value req "Title")].

Definition director_filter (req : Request) : list (string * value) :=
  [("Director", param_value req "Title")].

(** [GET /movies/:title] *)
Definition get_movie_by_title (req : Request) (db : Db) : Outcome :=
  Done (json 200 (movie_json (Movies_findOne (title_filter req) (movies db)))) db.

(** [GET /movies/:Genre/:Description] *)
Definition get_movie_by_genre (req : Request) (db : Db) : Outcome :=
  Done (json 200 (movie_json (Movies_findOne (genre_filter req) (movies db)))) db.

(** [GET /movies/:Director] *)
Definition get_movie_by_director (req : Request) (db : Db) : Outcome :=
  Done (json 200 (movie_json (Movies_findOne (director_filter req) (movies db)))) db.

(** [POST /users/:Username/movies/:MovieId] *)
Definition post_favorite (req : Request) (db : Db) : Outcome :=
  match cast_update (PushField "FavoriteMovies" (param_value req "MovieId")) with
  | Err msg => Done (send 500 ("Error: " +:+ msg)) db
  | Ok f =>
      let '(updated, us) :=
        Users_findOneAndUpdate (params req !! "Username") f (users db) in
      Done (json 200 (doc_json updated)) (with_users db us)
  end.

(** [DELETE /users/:Username/movies/:MovieId]: the object with [$pull] is
    the options argument of [findOneAndRemove], which has no update. *)
Definition delete_favorite (req : Request) (db : Db) : Outcome :=
  let '(removed, us) :=
    Users_findOneAndRemove (params req !! "Username") (users db) in
  Done (json 200 (doc_json removed)) (with_users db us).

(** [DELETE /users/:Username] *)
Definition delete_user (req : Request) (db : Db) : Outcome :=
  match user req with
  | None => Unhandled
  | Some me =>
      if strict_ne (Username me) (params req !! "Username")
      then Done (send 403 "Permission denied") db
      else
        let '(removed, us) :=
          Users_findOneAndRemove (params req !! "Username") (users db) in
        match removed with
        | None =>
            Done (send 404 (param_text req "Username" +:+ " was not found"))
                 (with_users db us)
        | Some _ =>
            Done (send 200 (param_text req "Username" +:+ " was deleted"))
                 (with_users db us)
        end
  end.

(** ** The route guard and the route table *)

(** The answer of [passport.authenticate('jwt', { session: false })] to a
    request it does not let through. *)
Definition unauthorized : Response := send 401 "Unauthorized".

(** Modelled from the spec: [passport.js] is not among the sources. The
    route guard, section 4.5: verify the bearer credential; on any failure
    answer unauthorized, on success attach the resolved identity to the
    request and pass it on. *)
Definition passport_jwt (now : Z) (req : Request) (db : Db) : Outcome :=
  match bearer req with
  | None => Done unauthorized db
  | Some presented =>
      match verify jwtSecret now (users db) presented with
      | Ok u => Next (with_user req u)
      | Err _ => Done unauthorized db
      end
  end.

Inductive HandlerId : Type :=
  | GetUsers | GetUser | PutUser
  | GetMovies | GetMovieByTitle | GetMovieByGenre | GetMovieByDirector
  | PostFavorite | DeleteFavorite | DeleteUser.

Definition handler (h : HandlerId) : Request -> Db -> Outcome :=
  match h with
  | GetUsers => get_users
  | GetUser => get_user
  | PutUser => put_user
  | GetMovies => get_movies
  | GetMovieByTitle => get_movie_by_title
  | GetMovieByGenre => get_movie_by_genre
  | GetMovieByDirector => get_movie_by_director
  | PostFavorite => post_favorite
  | DeleteFavorite => delete_favorite
  | DeleteUser => delete_user
  end.

(** The layers a route is registered with: the guard, the express-validator
    checks of [PUT /users/:username] (they record their findings on the
    request and pass it on; the handler never reads them), the handler. *)
Inductive Layer : Type :=
  | Guard
  | Validators
  | Handler (h : HandlerId).

Definition run_layer (now : Z) (l : Layer) (req : Request) (db : Db) : Outcome :=
  match l with
  | Guard => passport_jwt now req db
  | Validators => Next req
  | Handler h => handler h req db
  end.

(** Running a route's stack: each layer in turn until one answers. The
    second component lists the layers that were entered. [None] as the
    outcome: the stack passed the request on to the rest of the app. *)
Fixpoint run_stack (now : Z) (stack : list Layer) (req : Request) (db : Db)
    : option Outcome * list Layer :=
  match stack with
  | [] => (None, [])
  | l :: rest =>
      match run_layer now l req db with
      | Next req' =>
          let '(out, ran) := run_stack now rest req' db in (out, l :: ran)
      | out => (Some out, [l])
      end
  end.

Record Route : Type := mkRoute {
  route_method : Method;
  route_path : list Seg;
  route_stack : list Layer
}.

(** The guarded routes of [index.js], in the order of their registration.
    (Its two open routes, [GET /] and [POST /users], match none of these
    paths.) *)
Definition routes : list Route :=
  [ mkRoute GET [Lit "users"] [Guard; Handler GetUsers];
    mkRoute GET [Lit "users"; Param "username"] [Guard; Handler GetUser];
    mkRoute PUT [Lit "users"; Param "username"]
            [Guard; Validators; Handler PutUser];
    mkRoute GET [Lit "movies"] [Guard; Handler GetMovies];
    mkRoute GET [Lit "movies"; Param "title"] [Guard; Handler GetMovieByTitle];
    mkRoute GET [Lit "movies"; Param "Genre"; Param "Description"]
            [Guard; Handler GetMovieByGenre];
    mkRoute GET [Lit "movies"; Param "Director"]
            [Guard; Handler GetMovieByDirector];
    mkRoute POST [Lit "users"; Param "Username"; Lit "movies"; Param "MovieId"]
            [Guard; Handler PostFavorite];
    mkRoute DELETE [Lit "users"; Param "Username"; Lit "movies"; Param "MovieId"]
            [Guard; Handler DeleteFavorite];
    mkRoute DELETE [Lit "users"; Param "Username"] [Guard; Handler DeleteUser] ].

(** [req.params] when the route takes the request. *)
Definition route_matches (r : Route) (req : Request)
    : option (gmap string string) :=
  if Method_eqb (route_method r) (method req)
  then match_path (route_path r) (path req)
  else None.

Definition run_route (now : Z) (r : Route) (req : Request) (db : Db)
    : option Outcome * list Layer :=
  match route_matches r req with
  | Some ps => run_stack now (route_stack r) (with_params req ps) db
  | None => (None, [])
  end.

(** The first route of a table that takes the request. *)
Fixpoint find_route (rs : list Route) (req : Request)
    : option (Route * gmap string string) :=
  match rs with
  | [] => None
  | r :: rest =>
      match route_matches r req with
      | Some ps => Some (r, ps)
      | None => find_route rest req
      end
  end.

(** A request through the guarded routes: [None] when none of them takes
    it. Every handler answers, so the first route that matches is the only
    one that runs. *)
Definition dispatch (now : Z) (req : Request) (db : Db)
    : option (option Outcome * list Layer) :=
  match find_route routes req with
  | Some (r, ps) => Some (run_stack now (route_stack r) (with_params req ps) db)
  | None => None
  end.

(** ** auth.js: the login route *)

(** The second argument of the callback of [passport.authenticate]: a user
    document, or a plain value ([false] when authentication failed). *)
Inductive CallbackUser : Type :=
  | Doc (u : User)
  | Plain (v : value).

(** Its third argument, which the callback does not read. *)
Inductive Info : Type :=
  | NoInfo
  | MissingCredentials
  | Failure (e : AuthError).

Definition user_truthy (cu : CallbackUser) : bool :=
  match cu with
  | Doc _ => true
  | Plain v => truthy v
  end.

Definition user_value (cu : CallbackUser) : value :=
  match cu with
  | Doc u => toJSON u
  | Plain v => v
  end.

(** The callback [(error, user, info) => ...] of the login route.
    [req.login] without a session sets [req.user] and reports no error. *)
Definition login_callback (now : Z) (db : Db) (error : value)
    (cu : CallbackUser) (info : Info) : Outcome :=
  if truthy error || negb (user_truthy cu)
  then Done (json 400 (VObj [("message", VStr "Something is not right");
                             ("user", user_value cu)])) db
  else
    match cu with
    | Doc u =>
        match generateJWTToken (toJSON u) now with
        | Ok tok =>
            Done (json 200 (VObj [("user", toJSON u);
                                  ("token", VStr (jwt_encode tok))])) db
        | Err _ => Unhandled
        end
    | Plain _ => Unhandled
    end.

(** A credential of the login body: a non-empty string. *)
Definition credential (k : string) (req : Request) : option string :=
  match get k (body req) with
  | VStr s => if String.eqb s "" then None else Some s
  | _ => None
  end.

(** Modelled from the spec: [passport.js] is not among the sources; the
    credentials are the [{username, password}] of section 6.
    [passport.authenticate('local', { session: false }, callback)]: the
    arguments it calls the callback with. The strategy takes the two
    credentials as strings, as [authenticate] does; whenever it fails,
    passport passes [false] for the user. *)
Definition passport_local (req : Request) (db : Db)
    : value * CallbackUser * Info :=
  match credential "username" req, credential "password" req with
  | Some name, Some plaintext =>
      match authenticate (users db) name plaintext with
      | Ok u => (VNull, Doc u, NoInfo)
      | Err e => (VNull, Plain (VBool false), Failure e)
      end
  | _, _ => (VNull, Plain (VBool false), MissingCredentials)
  end.

(** [POST /login] *)
Definition login (now : Z) (req : Request) (db : Db) : Outcome :=
  let '(error, cu, info) := passport_local req db in
  login_callback now db error cu info.

(** A member of a JSON body. *)
Definition body_member (k : string) (r : Response) : value :=
  match content r with
  | Json v => get k v
  | Text _ => VUndefined
  end.

End Program.

(** The lifetime of a token: [n] days in seconds. *)
Definition days (n : Z) : Z := n * 24 * 60 * 60.

(** The parameter names a route path declares. *)
Fixpoint param_names (pat : list Seg) : list string :=
  match pat with
  | [] => []
  | Lit _ :: rest => param_names rest
  | Param x :: rest => x :: param_names rest
  end.

(** A request the guard turns away: no bearer credential, or one that fails
    verification. *)
Definition rejected `{External} (now : Z) (db : Db) (req : Request) : Prop :=
  bearer req = None \/
  exists presented e,
    bearer req = Some presented /\
    verify jwtSecret now (users db) presented = Err e.

(** A handler is registered under a route path. *)
Definition registered (pat : list Seg) (h : HandlerId) : Prop :=
  exists m stack, In (mkRoute m pat stack) routes /\ In (Handler h) stack.

(** The properties of the JSON form of a document. *)
Definition doc_props (u : User) : list (string * value) :=
  match toJSON u with
  | VObj props => props
  | _ => []
  end.

(** The token the properties expect [generateJWTToken] to issue for a
    document: HS256, the username as subject, issued now, expiring seven days
    later, the document's JSON form as further claims. *)
Definition issued `{External} (u : User) (now : Z) : Token :=
  let h := {| alg := "HS256"; typ := "JWT" |} in
  let c := {| sub := Username u; iat := now; exp := now + days 7;
              extra := doc_props u |} in
  {| header := h; claims := c; signature := hs256 jwtSecret h c |}.

(** From membership of a route in the table to the one route it is. *)
Ltac only_route Hin Hh :=
  unfold routes in Hin; simpl in Hin;
  repeat (destruct Hin as [Hin|Hin];
          [inversion Hin; subst; simpl in Hh;
           try (exfalso; intuition discriminate)|]);
  try contradiction.

(** ** A small implementation of the libraries, and sample data *)

Module Sample.

Definition hash (plaintext : string) : string := "$2b$10$" +:+ plaintext.

Definition mac (key : string) (h : Header) (c : Claims) : string :=
  key +:+ "/" +:+ alg h +:+ "/" +:+ sub c.

Definition alice : User :=
  {| Username := "alice12"; Password := hash "Secr3t!";
     Email := "alice@example.org"; Birthday := Some "1990-01-01";
     FavoriteMovies := ["m1"; "m2"] |}.

Definition bob : User :=
  {| Username := "bob99"; Password := hash "hunter2";
     Email := "bob@example.org"; Birthday := None;
     FavoriteMovies := [] |}.

Definition db0 : Db :=
  {| users := [alice; bob];
     movies := [VObj [("Title", VStr "Alien"); ("Genre", VStr "Horror")];
                VObj [("Title", VStr "Heat"); ("Genre", VStr "Crime")]] |}.

(** The token of [alice], issued at second 1000. *)
Definition alice_token : Token :=
  let h := {| alg := "HS256"; typ := "JWT" |} in
  let c := {| sub := "alice12"; iat := 1000; exp := 1000 + days 7;
              extra := match toJSON alice with
                       | VObj props => props
                       | _ => []
                       end |} in
  {| header := h; claims := c; signature := mac jwtSecret h c |}.

Definition forged_token : Token :=
  {| header := header alice_token; claims := claims alice_token;
     signature := "forged" |}.

Definition set_field (kv : string * value) (u : User) : User :=
  match kv with
  | ("Username", VStr s) => mkUser s (Password u) (Email u) (Birthday u) (FavoriteMovies u)
  | ("Password", VStr s) => mkUser (Username u) s (Email u) (Birthday u) (FavoriteMovies u)
  | ("Email", VStr s) => mkUser (Username u) (Password u) s (Birthday u) (FavoriteMovies u)
  | ("Birthday", VStr s) => mkUser (Username u) (Password u) (Email u) (Some s) (FavoriteMovies u)
  | _ => u
  end.

Definition libs : External :=
  {| compareSync := fun plaintext h => String.eqb h (hash plaintext);
     hs256 := mac;
     jwt_encode := fun tok => sub (claims tok) +:+ ".jwt";
     jwt_decode := fun s =>
       if String.eqb s "alice12.jwt" then Some alice_token
       else if String.eqb s "alice12.forged" then Some forged_token
       else None;
     query_matches := fun flt doc =>
       match flt with
       | [(k, VStr s)] =>
           match get k doc with
           | VStr s' => String.eqb s s'
           | _ => false
           end
       | _ => false
       end;
     cast_update := fun op =>
       match op with
       | SetFields fields => Ok (fun u => fold_right set_field u fields)
       | PushField "FavoriteMovies" (VStr m) =>
           Ok (fun u => mkUser (Username u) (Password u) (Email u) (Birthday u)
                               (FavoriteMovies u ++ [m]))
       | PushField _ _ => Err "CastError"
       end |}.

Definition request (m : Method) (segs : list string) (tok : option string)
    (b : value) : Request :=
  {| method := m; path := segs; bearer := tok; body := b; params := ∅;
     user := None |}.

(** Requests as the movie handlers receive them: past the guard, with the
    parameters of their route. *)
Definition genre_request : Request :=
  {| method := GET; path := ["movies"; "Horror"; "scary"];
     bearer := Some "alice12.jwt"; body := VUndefined;
     params := <["Genre" := "Horror"]> (<["Description" := "scary"]> ∅);
     user := Some alice |}.

Definition director_request : Request :=
  {| method := GET; path := ["movies"; "Mann"];
     bearer := Some "alice12.jwt"; body := VUndefined;
     params := <["Director" := "Mann"]> ∅;
     user := Some alice |}.

Definition title_request : Request :=
  {| method := GET; path := ["movies"; "Alien"];
     bearer := Some "alice12.jwt"; body := VUndefined;
     params := <["title" := "Alien"]> ∅;
     user := Some alice |}.

Definition login_request (name plaintext : string) : Request :=
  request POST ["login"] None
          (VObj [("username", VStr name); ("password", VStr plaintext)]).

End Sample.

(** * The rest of the app *)

(** ** index.js: CORS *)

Definition allowedOrigins : list string :=
  ["http://localhost:8080"; "http://localhost:1234";
   "https://seaflix.netlify.app"].

(** The [origin] function handed to [cors]: [Ok true] is
    [callback(null, true)], [Err message] is
    [callback(new Error(message), false)]. [None] is a request without an
    [Origin] header; an empty header is as falsy as none. *)
Definition cors_origin (origin : option string) : Result bool string :=
  match origin with
  | None => Ok true
  | Some o =>
      if String.eqb o "" then Ok true
      else if List.existsb (String.eqb o) allowedOrigins then Ok true
      else Err ("The CORS policy for this application doesn’t allow access from origin "
                +:+ o)
  end.

(** ** index.js: registration *)

(** The rules of express-validator that [POST /users] uses. *)
Inductive Rule : Type :=
  | IsLength (min max : nat)
  | IsAlphanumeric
  | NotEmpty
  | IsEmail.

(** [check(field, message).rule] *)
Record Check : Type := mkCheck {
  check_field : string;
  check_message : string;
  check_rule : Rule
}.

(** The validation chain of [POST /users]. *)
Definition user_checks : list Check :=
  [ mkCheck "Username" "Username is required" (IsLength 5 10);
    mkCheck "Username"
            "Username contains non-alphanumeric characters - not allowed"
            IsAlphanumeric;
    mkCheck "Password" "Password is required" NotEmpty;
    mkCheck "Email" "Email does not appear to be valid" IsEmail ].

Definition is_alnum (c : ascii) : bool :=
  let n := Z.of_N (N_of_ascii c) in
  ((48 <=? n) && (n <=? 57)) || ((65 <=? n) && (n <=? 90))
  || ((97 <=? n) && (n <=? 122)).

Fixpoint all_chars (p : ascii -> bool) (s : string) : bool :=
  match s with
  | EmptyString => true
  | String c rest => p c && all_chars p rest
  end.

(** What registration takes from its libraries and from [models.js]. *)
Class Registration : Type := {
  (** validator.js's [isEmail] *)
  isEmail : string -> bool;
  (** the text express-validator checks for a field that is no string *)
  field_text : value -> string;
  (** the entry of [errors.array()] for a failed check and the field's value *)
  error_entry : Check -> value -> value;
  (** [Users.hashPassword] *)
  hashPassword : string -> string;
  (** Mongoose's casting of a query value that is no string: the username
      to look for ([None]: one that matches no document), or the message of
      the error it raises *)
  cast_username : value -> Result (option string) string;
  (** [Users.create]: the document Mongoose casts, validates and stores, or
      the message of the error it raises *)
  create_user : list (string * value) -> Result User string;
  (** [String(v)] for a value that is no string *)
  to_text : value -> string
}.

(** The files [express.static('public')] finds for the path of a [GET]. *)
Class PublicFiles : Type := {
  public_file : list string -> option Response
}.

Section Site.
Context `{External} `{Registration} `{PublicFiles}.

(** The text a check reads for a field: the string itself, nothing for a
    field that is absent. *)
Definition check_text (v : value) : string :=
  match v with
  | VStr s => s
  | VUndefined | VNull => ""
  | _ => field_text v
  end.

Definition rule_passes (r : Rule) (text : string) : bool :=
  match r with
  | IsLength min max =>
      (Nat.leb min (String.length text)) && (Nat.leb (String.length text) max)
  | IsAlphanumeric =>
      negb (String.eqb text "") && all_chars is_alnum text
  | NotEmpty => negb (String.eqb text "")
  | IsEmail => isEmail text
  end.

(** [validationResult(req).array()] for a chain of checks, on a request
    that carries the checked fields in its body and nowhere else: the
    entries of the checks that fail, in the order of the chain. (A text is
    taken as a sequence of one-byte characters.) *)
Definition validationResult (checks : list Check) (req : Request) : list value :=
  List.flat_map
    (fun c =>
       let v := get (check_field c) (body req) in
       if rule_passes (check_rule c) (check_text v) then []
       else [error_entry c v])
    checks.

(** [{ Username: v }] as a query. *)
Definition username_query (v : value) : Result (option string) string :=
  match v with
  | VStr s => Ok (Some s)
  | _ => cast_username v
  end.

(** [v + ' already exists'] *)
Definition concat_text (v : value) : string :=
  match v with
  | VStr s => s
  | _ => to_text v
  end.

(** [POST /users]. [Users.hashPassword] runs before the [try]: given a
    password that is no string it throws with nothing sent. *)
Definition post_users (req : Request) (db : Db) : Outcome :=
  match validationResult user_checks req with
  | (_ :: _) as errors => Done (json 422 (VObj [("errors", VArr errors)])) db
  | [] =>
      match get "Password" (body req) with
      | VStr plaintext =>
          let hashedPassword := hashPassword plaintext in
          match username_query (get "Username" (body req)) with
          | Err msg => Done (send 500 ("Error: " +:+ msg)) db
          | Ok q =>
              match Users_findOne q (users db) with
              | Some _ =>
                  Done (send 400 (concat_text (get "Username" (body req))
                                  +:+ " already exists")) db
              | None =>
                  match create_user
                          [("Username", get "Username" (body req));
                           ("Password", VStr hashedPassword);
                           ("Email", get "Email" (body req));
                           ("Birthday", get "Birthday" (body req))] with
                  | Ok newUser =>
                      Done (json 201 (toJSON newUser))
                           (with_users db (users db ++ [newUser]))
                  | Err msg => Done (send 500 ("Error: " +:+ msg)) db
                  end
              end
          end
      | _ => Unhandled
      end
  end.

(** ** index.js: the app, in the order of its registrations *)

(** [res.send("APP loaded :)")] *)
Definition landing : Response := send 200 "APP loaded :)".

(** The answer of the error-handling middleware. *)
Definition something_broke : Response := send 500 "Something broke!".

Definition takes (m : Method) (pat : list Seg) (req : Request) : bool :=
  Method_eqb m (method req)
  && match match_path pat (path req) with
     | Some _ => true
     | None => false
     end.

(** A request with its [Origin] header through the app: [GET /], which is
    registered before everything else; the CORS check, whose error goes to
    the error-handling middleware; the login route; the static files; the
    registration route; the guarded routes. [None]: nothing of the app
    takes the request. The body is the one [bodyParser] produced. *)
Definition app (now : Z) (origin : option string) (req : Request) (db : Db)
    : option Outcome :=
  if takes GET [] req then Some (Done landing db)
  else
    match cors_origin origin with
    | Err _ => Some (Done something_broke db)
    | Ok _ =>
        if takes POST [Lit "login"] req then Some (login now req db)
        else
          match (if Method_eqb GET (method req) then public_file (path req)
                 else None) with
          | Some res => Some (Done res db)
          | None =>
              if takes POST [Lit "users"] req then Some (post_users req db)
              else
                match dispatch now req db with
                | Some (Some out, _) => Some out
                | _ => None
                end
          end
    end.

End Site.

(** Sample implementations for registration and the static files. *)
Module Site.

Definition registration : Registration :=
  {| isEmail := fun s => match index 0 "@" s with
                         | Some (S _) => true
                         | _ => false
                         end;
     field_text := fun _ => "[object Object]";
     error_entry := fun c v => VObj [("msg", VStr (check_message c));
                                     ("param", VStr (check_field c));
                                     ("value", v)];
     hashPassword := Sample.hash;
     cast_username := fun _ => Err "CastError";
     create_user := fun fields =>
       match prop_get "Username" fields, prop_get "Password" fields,
             prop_get "Email" fields with
       | VStr n, VStr p, VStr e =>
           Ok {| Username := n; Password := p; Email := e;
                 Birthday := match prop_get "Birthday" fields with
                             | VStr d => Some d
                             | _ => None
                             end;
                 FavoriteMovies := [] |}
       | _, _, _ => Err "ValidationError"
       end;
     to_text := fun _ => "[object Object]" |}.

Definition files : PublicFiles :=
  {| public_file := fun segs =>
       match segs with
       | ["documentation.html"] => Some (send 200 "<html>documentation</html>")
       | _ => None
       end |}.

Definition carol_body : value :=
  VObj [("Username", VStr "carol7"); ("Password", VStr "pa55word");
        ("Email", VStr "carol@example.org"); ("Birthday", VStr "1985-05-05")].

Definition carol : User :=
  {| Username := "carol7"; Password := Sample.hash "pa55word";
     Email := "carol@example.org"; Birthday := Some "1985-05-05";
     FavoriteMovies := [] |}.

Definition db1 : Db := with_users Sample.db0 (users Sample.db0 ++ [carol]).

(** A profile update, and the change the sample casting makes of it. *)
Definition email_body : value := VObj [("Email", VStr "alice@new.example")].

Definition rename_body : value := VObj [("Username", VStr "bob99")].

Definition change_of (b : value) (u : User) : User :=
  fold_right Sample.set_field u
    [("Username", get "Username" b); ("Password", get "Password" b);
     ("Email", get "Email" b); ("Birthday", get "Birthday" b)].

Definition push_of (m : string) (u : User) : User :=
  mkUser (Username u) (Password u) (Email u) (Birthday u)
         (FavoriteMovies u ++ [m]).

End Site.

(** * Properties *)

Section Properties.
Context `{External}.

(** ** The store *)

Lemma find_first_In (name : string) (us : list User) (u : User) :
  Users_findOne (Some name) us = Some u -> In u us /\ Username u = name.
Proof.
  unfold Users_findOne. intros Hf.
  apply find_some in Hf as [Hin Heq].
  split; [exact Hin | now apply String.eqb_eq].
Qed.

(** When usernames are unique, the lookup by a username finds the record
    that carries it. *)
Lemma find_unique (us : list User) (u : User) :
  List.NoDup (List.map Username us) -> In u us ->
  Users_findOne (Some (Username u)) us = Some u.
Proof.
  unfold Users_findOne.
  induction us as [|v us IH]; simpl; intros Hnd Hin; [contradiction|].
  inversion Hnd as [|? ? Hnotin Hnd']; subst.
  destruct Hin as [->|Hin].
  - now rewrite String.eqb_refl.
  - destruct (String.eqb (Username v) (Username u)) eqn:E.
    + apply String.eqb_eq in E. exfalso. apply Hnotin. rewrite E.
      now apply in_map.
    + now apply IH.
Qed.

(** ** The issuer *)

Lemma stringify_strings (l : list string) :
  List.map (fun x => match x with
                     | VUndefined => VNull
                     | _ => stringify x
                     end) (List.map VStr l) = List.map VStr l.
Proof. induction l as [|s l IH]; simpl; [reflexivity | now rewrite IH]. Qed.

(** The JSON form of a document has nothing for [JSON.stringify] to drop. *)
Lemma stringify_toJSON (u : User) : stringify (toJSON u) = toJSON u.
Proof.
  unfold toJSON. destruct (Birthday u); simpl; now rewrite stringify_strings.
Qed.

Lemma toJSON_obj (u : User) : toJSON u = VObj (doc_props u).
Proof. reflexivity. Qed.

Lemma generateJWTToken_doc (u : User) (now : Z) :
  generateJWTToken (toJSON u) now = Ok (issued u now).
Proof.
  unfold generateJWTToken, jwt_sign, issued, doc_props, toJSON.
  destruct (Birthday u); reflexivity.
Qed.

Lemma issued_signature (u : User) (now : Z) :
  signature_verifies jwtSecret (issued u now) = true.
Proof.
  unfold signature_verifies, issued; simpl. now rewrite String.eqb_refl.
Qed.

(** ** Verification *)

Lemma validate_ok_iff (secret : string) (now : Z) (presented : string)
    (tok : Token) :
  validate secret now presented = Ok tok <->
  jwt_decode presented = Some tok /\
  signature_verifies secret tok = true /\ now < exp (claims tok).
Proof.
  unfold validate. destruct (jwt_decode presented) as [t|].
  - destruct (signature_verifies secret t) eqn:Es; simpl.
    + destruct (exp (claims t) <=? now) eqn:Ee.
      * apply Z.leb_le in Ee. split; [discriminate|].
        intros (Hd & _ & Hlt). inversion Hd; subst. lia.
      * apply Z.leb_gt in Ee. split.
        -- intros Hok. inversion Hok; subst. now repeat split.
        -- intros (Hd & _ & _). now inversion Hd.
    + split; [discriminate|].
      intros (Hd & Hs & _). inversion Hd; subst. congruence.
  - split; [discriminate | intros (Hd & _); discriminate].
Qed.

Lemma verify_expired (secret : string) (now : Z) (us : list User)
    (presented : string) (tok : Token) :
  jwt_decode presented = Some tok ->
  signature_verifies secret tok = true ->
  exp (claims tok) <= now ->
  verify secret now us presented = Err Expired.
Proof.
  intros Hd Hs He. unfold verify, validate. rewrite Hd, Hs. simpl.
  apply Z.leb_le in He. now rewrite He.
Qed.

Lemma verify_live (secret : string) (now : Z) (us : list User)
    (presented : string) (tok : Token) (u : User) :
  jwt_decode presented = Some tok ->
  signature_verifies secret tok = true ->
  now < exp (claims tok) ->
  Users_findOne (Some (sub (claims tok))) us = Some u ->
  verify secret now us presented = Ok u.
Proof.
  intros Hd Hs He Hu. unfold verify.
  assert (Hv : validate secret now presented = Ok tok)
    by now apply validate_ok_iff.
  now rewrite Hv, Hu.
Qed.

(** C1. For every username and password that match a stored record,
    [authenticate] succeeds with that record, [generateJWTToken] issues a
    token for it, and verifying the token as presented (at any time before
    it expires, against the same store) succeeds and resolves to a user of
    the same username. Usernames are unique in the store, as the data model
    has them. *)
Theorem authenticate_issue_verify (us : list User) (u : User)
    (username plaintext : string) (now t : Z) (presented : string) :
  List.NoDup (List.map Username us) ->
  In u us ->
  Username u = username ->
  compareSync plaintext (Password u) = true ->
  t < now + days 7 ->
  exists tok,
    authenticate us username plaintext = Ok u /\
    generateJWTToken (toJSON u) now = Ok tok /\
    (jwt_decode presented = Some tok ->
     exists u', verify jwtSecret t us presented = Ok u' /\
                Username u' = username).
Proof.
  intros Hnd Hin Hname Hpw Ht. exists (issued u now).
  pose proof (find_unique us u Hnd Hin) as Hfind. rewrite Hname in Hfind.
  split; [|split].
  - unfold authenticate. now rewrite Hfind, Hpw.
  - apply generateJWTToken_doc.
  - intros Hd. exists u. split; [|exact Hname].
    apply verify_live with (tok := issued u now); try assumption.
    + apply issued_signature.
    + simpl. now rewrite Hname.
Qed.

(** C2. A presented token is accepted as valid exactly when it parses, its
    signature verifies under the secret and the current time is strictly
    before its [exp]. From [exp] on verification fails for every token, and
    fails with [Expired] for every token that passes the check listed before
    it (its signature verifies). The token issued for a user at [now] is
    issued at [now], expires seven days later, is accepted one second before
    that (resolving to the stored user of its subject) and fails with
    [Expired] one second after. *)
Theorem token_valid_iff_signed_and_live (now : Z) (presented : string) :
  (is_ok (validate jwtSecret now presented) = true <->
   exists tok, jwt_decode presented = Some tok /\
               signature_verifies jwtSecret tok = true /\
               now < exp (claims tok)) /\
  (forall tok us,
     jwt_decode presented = Some tok ->
     exp (claims tok) <= now ->
     is_ok (verify jwtSecret now us presented) = false /\
     (signature_verifies jwtSecret tok = true ->
      verify jwtSecret now us presented = Err Expired)) /\
  (forall u tok us,
     generateJWTToken (toJSON u) now = Ok tok ->
     jwt_decode presented = Some tok ->
     iat (claims tok) = now /\
     exp (claims tok) = iat (claims tok) + days 7 /\
     validate jwtSecret (iat (claims tok) + days 7 - 1) presented = Ok tok /\
     (forall u', Users_findOne (Some (Username u)) us = Some u' ->
                 verify jwtSecret (iat (claims tok) + days 7 - 1) us presented
                 = Ok u') /\
     verify jwtSecret (iat (claims tok) + days 7 + 1) us presented
     = Err Expired).
Proof.
  split; [|split].
  - split.
    + destruct (validate jwtSecret now presented) as [tok|e] eqn:Ev;
        [|discriminate].
      intros _. exists tok. now apply validate_ok_iff.
    + intros (tok & Htok). apply validate_ok_iff in Htok. now rewrite Htok.
  - intros tok us Hd He. split.
    + destruct (signature_verifies jwtSecret tok) eqn:Es.
      * now rewrite (verify_expired _ _ us _ _ Hd Es He).
      * unfold verify, validate. now rewrite Hd, Es.
    + intros Hs. now apply verify_expired with (tok := tok).
  - intros u tok us Hgen Hd. rewrite generateJWTToken_doc in Hgen.
    inversion Hgen; subst tok; clear Hgen.
    pose proof (issued_signature u now) as Hs. simpl.
    repeat split.
    + apply validate_ok_iff. repeat split; [assumption..|simpl; lia].
    + intros u' Hu'. apply verify_live with (tok := issued u now);
        [assumption..|simpl; lia|exact Hu'].
    + apply verify_expired with (tok := issued u now);
        [assumption..|simpl; lia].
Qed.

(** ** The guard *)

Lemma neq_eqb (a b : string) : a <> b -> String.eqb a b = false.
Proof. apply String.eqb_neq. Qed.

(** Every route of the table is registered with the guard in front. *)
Lemma routes_guarded (r : Route) :
  In r routes -> exists rest, route_stack r = Guard :: rest.
Proof.
  unfold routes. simpl.
  intros Hin. repeat (destruct Hin as [<-|Hin]; [simpl; eauto|]).
  contradiction.
Qed.

Lemma find_route_In (rs : list Route) (req : Request) (r : Route)
    (ps : gmap string string) :
  find_route rs req = Some (r, ps) ->
  In r rs /\ route_matches r req = Some ps.
Proof.
  induction rs as [|r0 rs IH]; simpl; [discriminate|].
  destruct (route_matches r0 req) as [ps0|] eqn:E.
  - intros Hs. inversion Hs; subst. split; [now left | exact E].
  - intros Hs. destruct (IH Hs) as [Hin Hm]. split; [now right | exact Hm].
Qed.

Lemma find_route_some (rs : list Route) (req : Request) (r : Route)
    (ps : gmap string string) :
  In r rs -> route_matches r req = Some ps ->
  exists r' ps', find_route rs req = Some (r', ps').
Proof.
  induction rs as [|r0 rs IH]; simpl; [contradiction|].
  intros Hin Hm. destruct (route_matches r0 req) as [ps0|] eqn:E; [eauto|].
  destruct Hin as [->|Hin]; [congruence | now apply IH].
Qed.

(** A rejected request stops at the guard, whatever follows it. *)
Lemma run_stack_rejected (now : Z) (db : Db) (req : Request)
    (ps : gmap string string) (rest : list Layer) :
  rejected now db req ->
  run_stack now (Guard :: rest) (with_params req ps) db
  = (Some (Done unauthorized db), [Guard]).
Proof.
  intros [Hnone|(presented & e & Hb & Hv)]; simpl; unfold passport_jwt; simpl.
  - now rewrite Hnone.
  - now rewrite Hb, Hv.
Qed.

(** A layer behind the guard is entered only when verification succeeded. *)
Lemma run_stack_behind_guard (now : Z) (db : Db) (req : Request)
    (rest : list Layer) (out : option Outcome) (ran : list Layer) (l : Layer) :
  run_stack now (Guard :: rest) req db = (out, ran) ->
  In l ran -> l <> Guard ->
  exists presented u,
    bearer req = Some presented /\
    verify jwtSecret now (users db) presented = Ok u.
Proof.
  simpl. unfold passport_jwt.
  destruct (bearer req) as [presented|].
  - destruct (verify jwtSecret now (users db) presented) as [u|e] eqn:Ev.
    + intros _ _ _. now exists presented, u.
    + intros Hr Hin Hne. inversion Hr; subst.
      destruct Hin as [<-|[]]. now contradiction Hne.
  - intros Hr Hin Hne. inversion Hr; subst.
    destruct Hin as [<-|[]]. now contradiction Hne.
Qed.

(** C3. A request that a guarded route takes and whose bearer credential is
    absent or fails verification (malformed, bad signature, expired, or of
    a user no longer stored) is answered 401 by the guard alone: the store
    is untouched and no handler is entered. Conversely a handler is entered
    only for a request whose credential verified. *)
Theorem guard_rejects_before_handler (now : Z) (req : Request) (db : Db) :
  (forall r ps,
     In r routes -> route_matches r req = Some ps -> rejected now db req ->
     run_route now r req db = (Some (Done unauthorized db), [Guard]) /\
     dispatch now req db = Some (Some (Done unauthorized db), [Guard]) /\
     status unauthorized = 401) /\
  (forall out ran h,
     dispatch now req db = Some (out, ran) -> In (Handler h) ran ->
     exists presented u,
       bearer req = Some presented /\
       verify jwtSecret now (users db) presented = Ok u).
Proof.
  split.
  - intros r ps Hin Hm Hrej. repeat split.
    + unfold run_route. rewrite Hm.
      destruct (routes_guarded r Hin) as [rest ->].
      now apply run_stack_rejected.
    + unfold dispatch.
      destruct (find_route_some routes req r ps Hin Hm) as (r' & ps' & Hf).
      rewrite Hf. apply find_route_In in Hf as [Hin' _].
      destruct (routes_guarded r' Hin') as [rest ->].
      now rewrite run_stack_rejected.
  - intros out ran h. unfold dispatch.
    destruct (find_route routes req) as [[r ps]|] eqn:Hf; [|discriminate].
    apply find_route_In in Hf as [Hin _].
    destruct (routes_guarded r Hin) as [rest ->].
    intros Hd Hran. inversion Hd as [Hrun].
    eapply (run_stack_behind_guard now db (with_params req ps)); eauto.
Qed.

(** ** Acting on another user's record *)

Lemma strict_ne_true (a : string) (b : option string) :
  b <> Some a -> strict_ne a b = true.
Proof.
  destruct b as [s|]; simpl; [|reflexivity].
  intros Hne. apply negb_true_iff, String.eqb_neq. congruence.
Qed.

Lemma put_user_forbidden (req : Request) (db : Db) (me : User) :
  user req = Some me -> params req !! "username" <> Some (Username me) ->
  put_user req db = Done (send 403 "Permission denied") db.
Proof.
  intros Hu Hne. unfold put_user. rewrite Hu.
  now rewrite (strict_ne_true _ _ Hne).
Qed.

Lemma delete_user_forbidden (req : Request) (db : Db) (me : User) :
  user req = Some me -> params req !! "Username" <> Some (Username me) ->
  delete_user req db = Done (send 403 "Permission denied") db.
Proof.
  intros Hu Hne. unfold delete_user. rewrite Hu.
  now rewrite (strict_ne_true _ _ Hne).
Qed.

Lemma guard_passes (now : Z) (req : Request) (db : Db) (presented : string)
    (me : User) :
  bearer req = Some presented ->
  verify jwtSecret now (users db) presented = Ok me ->
  passport_jwt now req db = Next (with_user req me).
Proof. intros Hb Hv. unfold passport_jwt. now rewrite Hb, Hv. Qed.

Lemma find_route_put_user (s0 name : string) (p : option string) (b : value)
    (ps0 : gmap string string) (u0 : option User) :
  lowercase s0 = "users" -> name <> "" ->
  find_route routes (mkRequest PUT [s0; name] p b ps0 u0)
  = Some (mkRoute PUT [Lit "users"; Param "username"]
                  [Guard; Validators; Handler PutUser],
          <["username" := name]> ∅).
Proof.
  intros Hl Hne. apply neq_eqb in Hne.
  cbn -[insert empty lowercase]. rewrite Hl, Hne. reflexivity.
Qed.

Lemma find_route_delete_user (s0 name : string) (p : option string)
    (b : value) (ps0 : gmap string string) (u0 : option User) :
  lowercase s0 = "users" -> name <> "" ->
  find_route routes (mkRequest DELETE [s0; name] p b ps0 u0)
  = Some (mkRoute DELETE [Lit "users"; Param "Username"]
                  [Guard; Handler DeleteUser],
          <["Username" := name]> ∅).
Proof.
  intros Hl Hne. apply neq_eqb in Hne.
  cbn -[insert empty lowercase]. rewrite Hl, Hne. reflexivity.
Qed.

(** C4. A request to [PUT /users/:username] or [DELETE /users/:Username]
    whose credential resolves to a user of another username than the one in
    the path is answered 403 [Permission denied], whatever its body, and
    the store is left as it was. *)
Theorem other_user_permission_denied (now : Z) (db : Db) (me : User)
    (s0 name presented : string) (b : value) (ps0 : gmap string string)
    (u0 : option User) :
  verify jwtSecret now (users db) presented = Ok me ->
  lowercase s0 = "users" ->
  name <> "" ->
  Username me <> name ->
  dispatch now (mkRequest PUT [s0; name] (Some presented) b ps0 u0) db
  = Some (Some (Done (send 403 "Permission denied") db),
          [Guard; Validators; Handler PutUser]) /\
  dispatch now (mkRequest DELETE [s0; name] (Some presented) b ps0 u0) db
  = Some (Some (Done (send 403 "Permission denied") db),
          [Guard; Handler DeleteUser]).
Proof.
  intros Hv Hl Hname Hne.
  assert (Hother : Some name <> Some (Username me)) by congruence.
  split; unfold dispatch.
  - rewrite find_route_put_user by assumption.
    cbn [route_stack run_stack run_layer handler].
    erewrite guard_passes; [|reflexivity|exact Hv].
    rewrite put_user_forbidden with (me := me); [reflexivity|reflexivity|].
    cbn [params with_user with_params]. now rewrite lookup_insert_eq.
  - rewrite find_route_delete_user by assumption.
    cbn [route_stack run_stack run_layer handler].
    erewrite guard_passes; [|reflexivity|exact Hv].
    rewrite delete_user_forbidden with (me := me); [reflexivity|reflexivity|].
    cbn [params with_user with_params]. now rewrite lookup_insert_eq.
Qed.

(** ** The login route *)

Lemma stringify_login_body (u : User) (t : string) :
  stringify (VObj [("user", toJSON u); ("token", VStr t)])
  = VObj [("user", toJSON u); ("token", VStr t)].
Proof.
  change (stringify (VObj [("user", toJSON u); ("token", VStr t)]))
    with (VObj [("user", stringify (toJSON u)); ("token", VStr t)]).
  now rewrite stringify_toJSON.
Qed.

Lemma login_success (now : Z) (req : Request) (db : Db)
    (name plaintext : string) (u : User) :
  credential "username" req = Some name ->
  credential "password" req = Some plaintext ->
  authenticate (users db) name plaintext = Ok u ->
  login now req db
  = Done {| status := 200;
            content := Json (VObj [("user", toJSON u);
                                   ("token", VStr (jwt_encode (issued u now)))]) |}
         db.
Proof.
  intros Hn Hp Ha. unfold login, passport_local. rewrite Hn, Hp, Ha.
  unfold login_callback. cbn [truthy user_truthy negb orb].
  rewrite generateJWTToken_doc. unfold json.
  now rewrite stringify_login_body.
Qed.

Lemma login_failure (now : Z) (req : Request) (db : Db) :
  (credential "username" req = None \/
   credential "password" req = None \/
   exists name plaintext e,
     credential "username" req = Some name /\
     credential "password" req = Some plaintext /\
     authenticate (users db) name plaintext = Err e) ->
  login now req db
  = Done {| status := 400;
            content := Json (VObj [("message", VStr "Something is not right");
                                   ("user", VBool false)]) |}
         db.
Proof.
  unfold login, passport_local.
  intros [Hn|[Hp|(name & plaintext & e & Hn & Hp & Ha)]].
  - now rewrite Hn.
  - rewrite Hp. now destruct (credential "username" req).
  - now rewrite Hn, Hp, Ha.
Qed.

(** C5, as the code has it. A login that succeeds is answered 200 with a
    body of the user and the token. A login that fails (a credential
    missing, no such user, a wrong password) is answered 400 with the body
    [{message: 'Something is not right', user: false}]: the [user] member is
    the value the callback received, which is [false] for a failed
    authentication and is left out of the body when the callback received
    an error and no user. *)
Theorem login_responses (now : Z) (req : Request) (db : Db) :
  (forall name plaintext u,
     credential "username" req = Some name ->
     credential "password" req = Some plaintext ->
     authenticate (users db) name plaintext = Ok u ->
     exists tok,
       generateJWTToken (toJSON u) now = Ok tok /\
       login now req db
       = Done {| status := 200;
                 content := Json (VObj [("user", toJSON u);
                                        ("token", VStr (jwt_encode tok))]) |}
              db) /\
  ((credential "username" req = None \/
    credential "password" req = None \/
    exists name plaintext e,
      credential "username" req = Some name /\
      credential "password" req = Some plaintext /\
      authenticate (users db) name plaintext = Err e) ->
   login now req db
   = Done {| status := 400;
             content := Json (VObj [("message", VStr "Something is not right");
                                    ("user", VBool false)]) |}
          db) /\
  (forall error cu info,
     truthy error = true \/ user_truthy cu = false ->
     login_callback now db error cu info
     = Done (json 400 (VObj [("message", VStr "Something is not right");
                             ("user", user_value cu)])) db) /\
  (forall error info,
     truthy error = true ->
     login_callback now db error (Plain VUndefined) info
     = Done {| status := 400;
               content := Json (VObj [("message",
                                       VStr "Something is not right")]) |}
            db).
Proof.
  repeat split.
  - intros name plaintext u Hn Hp Ha. exists (issued u now). split.
    + apply generateJWTToken_doc.
    + now apply login_success with (name := name) (plaintext := plaintext).
  - apply login_failure.
  - intros error cu info [He|Hu]; unfold login_callback.
    + now rewrite He.
    + rewrite Hu. now rewrite orb_true_r.
  - intros error info He. unfold login_callback. now rewrite He.
Qed.

(** C6. For every successful login the [user] member of the response body
    is the JSON form of the stored document and the further claims of the
    issued token are its properties; the login route and the issuer add
    nothing of the document to them. Neither has a [Password] property, and
    both (the whole token with them) are the same whatever the stored
    password hash is. *)
Theorem login_excludes_password_hash (now : Z) (req : Request) (db : Db)
    (name plaintext : string) (u : User) :
  credential "username" req = Some name ->
  credential "password" req = Some plaintext ->
  authenticate (users db) name plaintext = Ok u ->
  exists res tok,
    login now req db = Done res db /\
    generateJWTToken (toJSON u) now = Ok tok /\
    body_member "user" res = toJSON u /\
    body_member "token" res = VStr (jwt_encode tok) /\
    VObj (extra (claims tok)) = toJSON u /\
    get "Password" (body_member "user" res) = VUndefined /\
    prop_get "Password" (extra (claims tok)) = VUndefined /\
    (forall h,
       toJSON (mkUser (Username u) h (Email u) (Birthday u) (FavoriteMovies u))
       = toJSON u /\
       generateJWTToken
         (toJSON (mkUser (Username u) h (Email u) (Birthday u)
                         (FavoriteMovies u))) now
       = Ok tok).
Proof.
  intros Hn Hp Ha. eexists. exists (issued u now).
  split; [eapply login_success; eassumption|].
  split; [apply generateJWTToken_doc|].
  split; [reflexivity|]. split; [reflexivity|]. split; [reflexivity|].
  split; [|split].
  - cbn. unfold toJSON. cbn. now destruct (Birthday u).
  - cbn. unfold doc_props, toJSON. cbn. now destruct (Birthday u).
  - intros h. split; [reflexivity|]. now rewrite generateJWTToken_doc.
Qed.

(** C7. A login with the username of a stored user and a password that
    does not verify, and a login with a username no stored user has, get
    the same answer (status and body) and leave the same store. *)
Theorem login_failures_indistinguishable (now : Z) (db : Db)
    (req1 req2 : Request) (name1 plaintext1 name2 plaintext2 : string)
    (u : User) :
  credential "username" req1 = Some name1 ->
  credential "password" req1 = Some plaintext1 ->
  credential "username" req2 = Some name2 ->
  credential "password" req2 = Some plaintext2 ->
  Users_findOne (Some name1) (users db) = Some u ->
  compareSync plaintext1 (Password u) = false ->
  Users_findOne (Some name2) (users db) = None ->
  authenticate (users db) name1 plaintext1 = Err InvalidCredentials /\
  authenticate (users db) name2 plaintext2 = Err NotFound /\
  login now req1 db = login now req2 db.
Proof.
  intros Hn1 Hp1 Hn2 Hp2 Hu Hpw Hnone.
  assert (Ha1 : authenticate (users db) name1 plaintext1 = Err InvalidCredentials)
    by (unfold authenticate; now rewrite Hu, Hpw).
  assert (Ha2 : authenticate (users db) name2 plaintext2 = Err NotFound)
    by (unfold authenticate; now rewrite Hnone).
  repeat split; try assumption.
  rewrite (login_failure now req1 db), (login_failure now req2 db);
    [reflexivity| |]; right; right; eauto 10.
Qed.

(** ** The movie lookups *)

(** [req.params] has entries only under the names the route path spells. *)
Lemma match_path_params (pat : list Seg) :
  forall (segs : list string) (ps : gmap string string) (k v : string),
    match_path pat segs = Some ps -> ps !! k = Some v ->
    In k (param_names pat).
Proof.
  induction pat as [|[s|x] pat IH]; intros [|seg segs] ps k v; simpl;
    try discriminate.
  - intros [= <-]. rewrite lookup_empty. discriminate.
  - destruct (String.eqb (lowercase s) (lowercase seg)); [|discriminate].
    apply IH.
  - destruct (String.eqb seg ""); [discriminate|].
    destruct (match_path pat segs) as [ps'|] eqn:E; [|discriminate].
    intros [= <-]. destruct (decide (x = k)) as [->|Hne]; [now left|].
    rewrite lookup_insert_ne by exact Hne. intros Hk. right.
    now apply (IH segs ps' k v).
Qed.

Lemma param_undefined (pat : list Seg) (segs : list string) (req : Request)
    (k : string) :
  match_path pat segs = Some (params req) -> ~ In k (param_names pat) ->
  param_value req k = VUndefined.
Proof.
  intros Hm Hk. unfold param_value.
  destruct (params req !! k) as [v|] eqn:E; [|reflexivity].
  exfalso. apply Hk. eapply match_path_params; eauto.
Qed.

Lemma registered_title (pat : list Seg) :
  registered pat GetMovieByTitle -> pat = [Lit "movies"; Param "title"].
Proof. intros (m & stack & Hin & Hh). only_route Hin Hh. reflexivity. Qed.

Lemma registered_genre (pat : list Seg) :
  registered pat GetMovieByGenre ->
  pat = [Lit "movies"; Param "Genre"; Param "Description"].
Proof. intros (m & stack & Hin & Hh). only_route Hin Hh. reflexivity. Qed.

Lemma registered_director (pat : list Seg) :
  registered pat GetMovieByDirector -> pat = [Lit "movies"; Param "Director"].
Proof. intros (m & stack & Hin & Hh). only_route Hin Hh. reflexivity. Qed.

(** The parameter a route path declares is in [req.params] under the name
    the path spells. *)
Lemma match_path_first_param (x : string) (rest : list Seg)
    (segs : list string) (ps : gmap string string) :
  match_path (Lit "movies" :: Param x :: rest) segs = Some ps ->
  exists v, ps !! x = Some v /\ segs !! 1%nat = Some v.
Proof.
  destruct segs as [|s0 [|s1 segs]]; cbn [match_path]; try discriminate.
  - destruct (String.eqb (lowercase "movies") (lowercase s0)); discriminate.
  - destruct (String.eqb (lowercase "movies") (lowercase s0)); [|discriminate].
    destruct (String.eqb s1 ""); [discriminate|].
    destruct (match_path rest segs) as [ps'|]; [|discriminate].
    intros [= <-]. exists s1. now rewrite lookup_insert_eq.
Qed.

(** C8. The handlers of the movie-by-genre and movie-by-director routes
    build their filter from [req.params.Title]. The route paths they are
    registered under declare [Genre] and [Director] (which [req.params]
    does carry) and no [Title], so for every request the filter value is
    [undefined] and the lookup is the same whatever genre or director was
    asked for. *)
Theorem genre_director_filter_on_Title (pat : list Seg) (segs : list string)
    (req : Request) (db : Db) :
  match_path pat segs = Some (params req) ->
  (registered pat GetMovieByGenre ->
   (exists g, params req !! "Genre" = Some g /\ segs !! 1%nat = Some g) /\
   genre_filter req = [("Genre", param_value req "Title")] /\
   genre_filter req = [("Genre", VUndefined)] /\
   get_movie_by_genre req db
   = Done (json 200 (movie_json (Movies_findOne [("Genre", VUndefined)]
                                                (movies db)))) db) /\
  (registered pat GetMovieByDirector ->
   (exists d, params req !! "Director" = Some d /\ segs !! 1%nat = Some d) /\
   director_filter req = [("Director", param_value req "Title")] /\
   director_filter req = [("Director", VUndefined)] /\
   get_movie_by_director req db
   = Done (json 200 (movie_json (Movies_findOne [("Director", VUndefined)]
                                                (movies db)))) db).
Proof.
  intros Hm. split; intros Hreg.
  - apply registered_genre in Hreg. subst pat.
    assert (Hundef : param_value req "Title" = VUndefined).
    { eapply param_undefined; [exact Hm|].
      simpl. intros [E|[E|[]]]; discriminate. }
    split; [now apply match_path_first_param in Hm|].
    unfold get_movie_by_genre, genre_filter. now rewrite Hundef.
  - apply registered_director in Hreg. subst pat.
    assert (Hundef : param_value req "Title" = VUndefined).
    { eapply param_undefined; [exact Hm|].
      simpl. intros [E|[]]; discriminate. }
    split; [now apply match_path_first_param in Hm|].
    unfold get_movie_by_director, director_filter. now rewrite Hundef.
Qed.

(** C9. The handler of [GET /movies/:title] builds its filter from
    [req.params.Title], while the route path declares the parameter as
    [title]: for every request [req.params] carries the requested title
    under [title] and nothing under [Title], the filter value is
    [undefined], and the lookup is the same whatever title was asked for. *)
Theorem title_filter_undefined (pat : list Seg) (segs : list string)
    (req : Request) (db : Db) :
  registered pat GetMovieByTitle ->
  match_path pat segs = Some (params req) ->
  (exists t, params req !! "title" = Some t /\ segs !! 1%nat = Some t) /\
  params req !! "Title" = None /\
  title_filter req = [("Title", param_value req "Title")] /\
  title_filter req = [("Title", VUndefined)] /\
  get_movie_by_title req db
  = Done (json 200 (movie_json (Movies_findOne [("Title", VUndefined)]
                                               (movies db)))) db.
Proof.
  intros Hreg Hm. apply registered_title in Hreg. subst pat.
  assert (Hnone : params req !! "Title" = None).
  { destruct (params req !! "Title") as [v|] eqn:E; [|reflexivity].
    apply (match_path_params _ _ _ _ _ Hm) in E.
    simpl in E. destruct E as [E|[]]. discriminate. }
  assert (Hundef : param_value req "Title" = VUndefined)
    by (unfold param_value; now rewrite Hnone).
  split; [now apply match_path_first_param in Hm|].
  split; [exact Hnone|].
  unfold get_movie_by_title, title_filter. now rewrite Hundef.
Qed.

(** Through the table: an authenticated [GET /movies/<t>] is taken by the
    title route, which is registered before the director route of the same
    shape, and is answered by the lookup under an undefined title. *)
Lemma dispatch_get_movie (now : Z) (db : Db) (me : User)
    (s0 t presented : string) (b : value) (ps0 : gmap string string)
    (u0 : option User) :
  verify jwtSecret now (users db) presented = Ok me ->
  lowercase s0 = "movies" ->
  t <> "" ->
  dispatch now (mkRequest GET [s0; t] (Some presented) b ps0 u0) db
  = Some (Some (Done (json 200 (movie_json
                                  (Movies_findOne [("Title", VUndefined)]
                                                  (movies db)))) db),
          [Guard; Handler GetMovieByTitle]).
Proof.
  intros Hv Hl Ht. apply neq_eqb in Ht. unfold dispatch.
  assert (Hf : find_route routes
                 (mkRequest GET [s0; t] (Some presented) b ps0 u0)
               = Some (mkRoute GET [Lit "movies"; Param "title"]
                               [Guard; Handler GetMovieByTitle],
                       <["title" := t]> ∅)).
  { cbn -[insert empty lowercase]. rewrite Hl, Ht. reflexivity. }
  rewrite Hf. cbn [route_stack run_stack run_layer handler].
  erewrite guard_passes; [|reflexivity|exact Hv].
  unfold get_movie_by_title, title_filter, param_value.
  cbn [params with_user with_params].
  rewrite lookup_insert_ne by discriminate. now rewrite lookup_empty.
Qed.

(** ** Removing a favourite *)

Lemma remove_first_split (name : string) (us : list User) (u : User) :
  Users_findOne (Some name) us = Some u ->
  exists l1 l2,
    us = l1 ++ u :: l2 /\
    Forall (fun x => Username x <> name) l1 /\
    remove_first name us = l1 ++ l2.
Proof.
  unfold Users_findOne.
  induction us as [|v us IH]; simpl; [discriminate|].
  destruct (String.eqb (Username v) name) eqn:E.
  - intros [= ->]. exists [], us. repeat split. constructor.
  - intros Hf. destruct (IH Hf) as (l1 & l2 & -> & Hall & ->).
    exists (v :: l1), l2. repeat split.
    constructor; [now apply String.eqb_neq | exact Hall].
Qed.

Lemma find_none (name : string) (us : list User) :
  ~ In name (List.map Username us) -> Users_findOne (Some name) us = None.
Proof.
  unfold Users_findOne.
  induction us as [|v us IH]; simpl; [reflexivity|].
  intros Hn. destruct (String.eqb (Username v) name) eqn:E.
  - apply String.eqb_eq in E. exfalso. apply Hn. now left.
  - apply IH. intros Hin. apply Hn. now right.
Qed.

(** With unique usernames, nothing is left under the name. *)
Lemma remove_first_gone (name : string) (us : list User) :
  List.NoDup (List.map Username us) ->
  Users_findOne (Some name) (remove_first name us) = None.
Proof.
  induction us as [|v us IH]; simpl; [reflexivity|].
  intros Hnd. inversion Hnd as [|? ? Hnotin Hnd']; subst.
  destruct (String.eqb (Username v) name) eqn:E.
  - apply String.eqb_eq in E. subst name. now apply find_none.
  - simpl. rewrite E. now apply IH.
Qed.

Lemma find_route_delete_favorite (s0 name s2 m : string) (p : option string)
    (b : value) (ps0 : gmap string string) (u0 : option User) :
  lowercase s0 = "users" -> lowercase s2 = "movies" ->
  name <> "" -> m <> "" ->
  find_route routes (mkRequest DELETE [s0; name; s2; m] p b ps0 u0)
  = Some (mkRoute DELETE
                  [Lit "users"; Param "Username"; Lit "movies"; Param "MovieId"]
                  [Guard; Handler DeleteFavorite],
          <["Username" := name]> (<["MovieId" := m]> ∅)).
Proof.
  intros Hl0 Hl2 Hn Hm. apply neq_eqb in Hn, Hm.
  cbn -[insert empty lowercase]. rewrite Hl0, Hl2, Hn, Hm. reflexivity.
Qed.

(** The handler, on a request whose [Username] parameter names a stored
    user: that user's document is taken out of the collection and sent. *)
Lemma delete_favorite_found (req : Request) (db : Db) (name : string)
    (u : User) :
  params req !! "Username" = Some name ->
  Users_findOne (Some name) (users db) = Some u ->
  delete_favorite req db
  = Done (json 200 (toJSON u)) (with_users db (remove_first name (users db))).
Proof.
  intros Hp Hf. unfold delete_favorite, Users_findOneAndRemove.
  now rewrite Hp, Hf.
Qed.

(** C10. An authenticated request to
    [DELETE /users/:Username/movies/:MovieId] for a stored user runs
    [Users.findOneAndRemove] on the username: the answer is that user's
    document, and the collection afterwards is the one before without that
    whole document (one document shorter; with unique usernames, no
    document is left under the name). The movie identifier plays no part,
    and the requester need not be that user. *)
Theorem delete_favorite_removes_user (now : Z) (db : Db) (me u : User)
    (s0 name s2 m presented : string) (b : value) (ps0 : gmap string string)
    (u0 : option User) :
  verify jwtSecret now (users db) presented = Ok me ->
  lowercase s0 = "users" -> lowercase s2 = "movies" ->
  name <> "" -> m <> "" ->
  Users_findOne (Some name) (users db) = Some u ->
  exists l1 l2,
    users db = l1 ++ u :: l2 /\
    Forall (fun x => Username x <> name) l1 /\
    dispatch now
      (mkRequest DELETE [s0; name; s2; m] (Some presented) b ps0 u0) db
    = Some (Some (Done (json 200 (toJSON u)) (with_users db (l1 ++ l2))),
            [Guard; Handler DeleteFavorite]) /\
    S (length (l1 ++ l2)) = length (users db) /\
    (List.NoDup (List.map Username (users db)) ->
     Users_findOne (Some name) (l1 ++ l2) = None).
Proof.
  intros Hv Hl0 Hl2 Hn Hm Hf.
  destruct (remove_first_split name (users db) u Hf) as (l1 & l2 & Hus & Hall & Hrm).
  exists l1, l2. split; [exact Hus|]. split; [exact Hall|]. split; [|split].
  - unfold dispatch. rewrite find_route_delete_favorite by assumption.
    cbn [route_stack run_stack run_layer handler].
    erewrite guard_passes; [|reflexivity|exact Hv].
    rewrite delete_favorite_found with (name := name) (u := u).
    + now rewrite Hrm.
    + cbn [params with_user with_params]. now rewrite lookup_insert_eq.
    + exact Hf.
  - rewrite Hus. rewrite !length_app. simpl. lia.
  - intros Hnd. rewrite <- Hrm. now apply remove_first_gone.
Qed.

End Properties.

(** * The statements at sample inputs *)

Import Sample.

Lemma sample_usernames_unique : List.NoDup (List.map Username (users db0)).
Proof.
  simpl. repeat constructor; simpl; intuition discriminate.
Defined.

(** C1 at the sample store: [alice12] logs in at second 1000 and presents
    her token at second 2000. *)
Lemma authenticate_issue_verify_sample :
  @authenticate libs (users db0) "alice12" "Secr3t!" = Ok alice /\
  @generateJWTToken libs (toJSON alice) 1000 = Ok alice_token /\
  exists u', @verify libs jwtSecret 2000 (users db0) "alice12.jwt" = Ok u' /\
             Username u' = "alice12".
Proof.
  destruct (@authenticate_issue_verify libs (users db0) alice
              "alice12" "Secr3t!" 1000 2000 "alice12.jwt")
    as (tok & Ha & Hg & Hv).
  - exact sample_usernames_unique.
  - left. reflexivity.
  - reflexivity.
  - reflexivity.
  - reflexivity.
  - split; [exact Ha|]. split; [reflexivity|].
    apply Hv. vm_compute in Hg. injection Hg as <-. reflexivity.
Defined.

(** C2 at the sample token: accepted one second before the seven days are
    over, [Expired] one second after. *)
Lemma token_valid_iff_signed_and_live_sample :
  @verify libs jwtSecret (1000 + days 7 - 1) (users db0) "alice12.jwt"
  = Ok alice /\
  @verify libs jwtSecret (1000 + days 7 + 1) (users db0) "alice12.jwt"
  = Err Expired.
Proof.
  destruct (proj2 (proj2 (@token_valid_iff_signed_and_live libs 1000
                            "alice12.jwt"))
              alice alice_token (users db0) eq_refl eq_refl)
    as (_ & _ & _ & Hlive & Hexpired).
  split; [apply (Hlive alice); reflexivity | exact Hexpired].
Defined.

(** C3 at a request without a credential. *)
Lemma guard_rejects_before_handler_sample :
  @dispatch libs 2000 (request GET ["users"] None VUndefined) db0
  = Some (Some (Done unauthorized db0), [Guard]).
Proof.
  apply (proj1 (@guard_rejects_before_handler libs 2000
                  (request GET ["users"] None VUndefined) db0)
           (mkRoute GET [Lit "users"] [Guard; Handler GetUsers]) ∅).
  - left. reflexivity.
  - reflexivity.
  - left. reflexivity.
Defined.

(** C4: [alice12] on the record of [bob99]. *)
Lemma other_user_permission_denied_sample :
  @dispatch libs 2000
     (mkRequest PUT ["users"; "bob99"] (Some "alice12.jwt")
                (VObj [("Username", VStr "mallory")]) ∅ None) db0
  = Some (Some (Done (send 403 "Permission denied") db0),
          [Guard; Validators; Handler PutUser]) /\
  @dispatch libs 2000
     (mkRequest DELETE ["users"; "bob99"] (Some "alice12.jwt")
                (VObj [("Username", VStr "mallory")]) ∅ None) db0
  = Some (Some (Done (send 403 "Permission denied") db0),
          [Guard; Handler DeleteUser]).
Proof.
  apply (@other_user_permission_denied libs 2000 db0 alice "users" "bob99"
           "alice12.jwt").
  - reflexivity.
  - reflexivity.
  - discriminate.
  - discriminate.
Defined.

(** C5 as the specification states it fails: a login with a wrong password
    is answered 400 with [user: false], not [user: null]. *)
Lemma login_failure_user_not_null :
  exists res,
    @login libs 1000 (login_request "alice12" "wrong") db0 = Done res db0 /\
    status res = 400 /\
    body_member "user" res = VBool false /\
    body_member "user" res <> VNull.
Proof.
  eexists. split; [vm_compute; reflexivity|].
  split; [reflexivity|]. split; [reflexivity|]. discriminate.
Qed.

(** C5 at a wrong password. *)
Lemma login_responses_sample :
  @login libs 1000 (login_request "alice12" "wrong") db0
  = Done {| status := 400;
            content := Json (VObj [("message", VStr "Something is not right");
                                   ("user", VBool false)]) |}
         db0.
Proof.
  apply (proj1 (proj2 (@login_responses libs 1000
                         (login_request "alice12" "wrong") db0))).
  right. right. exists "alice12", "wrong", InvalidCredentials.
  repeat split.
Defined.

(** C6 at the login of [alice12]. *)
Lemma login_excludes_password_hash_sample :
  exists res tok,
    @login libs 1000 (login_request "alice12" "Secr3t!") db0 = Done res db0 /\
    @generateJWTToken libs (toJSON alice) 1000 = Ok tok /\
    body_member "user" res = toJSON alice /\
    body_member "token" res = VStr (@jwt_encode libs tok) /\
    VObj (extra (claims tok)) = toJSON alice /\
    get "Password" (body_member "user" res) = VUndefined /\
    prop_get "Password" (extra (claims tok)) = VUndefined /\
    (forall h,
       toJSON (mkUser (Username alice) h (Email alice) (Birthday alice)
                      (FavoriteMovies alice))
       = toJSON alice /\
       @generateJWTToken libs
         (toJSON (mkUser (Username alice) h (Email alice) (Birthday alice)
                         (FavoriteMovies alice))) 1000
       = Ok tok).
Proof.
  apply (@login_excludes_password_hash libs 1000
           (login_request "alice12" "Secr3t!") db0 "alice12" "Secr3t!" alice);
    reflexivity.
Defined.

(** C7: a wrong password for [alice12] and the unknown [nobody]. *)
Lemma login_failures_indistinguishable_sample :
  @authenticate libs (users db0) "alice12" "wrong" = Err InvalidCredentials /\
  @authenticate libs (users db0) "nobody" "Secr3t!" = Err NotFound /\
  @login libs 1000 (login_request "alice12" "wrong") db0
  = @login libs 1000 (login_request "nobody" "Secr3t!") db0.
Proof.
  apply (@login_failures_indistinguishable libs 1000 db0
           (login_request "alice12" "wrong") (login_request "nobody" "Secr3t!")
           "alice12" "wrong" "nobody" "Secr3t!" alice);
    reflexivity.
Defined.

Lemma registered_genre_route :
  registered [Lit "movies"; Param "Genre"; Param "Description"] GetMovieByGenre.
Proof.
  exists GET, [Guard; Handler GetMovieByGenre]. split.
  - do 5 right. left. reflexivity.
  - right. left. reflexivity.
Defined.

Lemma registered_title_route :
  registered [Lit "movies"; Param "title"] GetMovieByTitle.
Proof.
  exists GET, [Guard; Handler GetMovieByTitle]. split.
  - do 4 right. left. reflexivity.
  - right. left. reflexivity.
Defined.

Lemma registered_director_route :
  registered [Lit "movies"; Param "Director"] GetMovieByDirector.
Proof.
  exists GET, [Guard; Handler GetMovieByDirector]. split.
  - do 6 right. left. reflexivity.
  - right. left. reflexivity.
Defined.

(** C8: the store has a horror movie; asking for the genre, or for a
    director, finds none. *)
Lemma genre_director_filter_on_Title_sample :
  (genre_filter genre_request = [("Genre", VUndefined)] /\
   @get_movie_by_genre libs genre_request db0 = Done (json 200 VNull) db0) /\
  (director_filter director_request = [("Director", VUndefined)] /\
   @get_movie_by_director libs director_request db0
   = Done (json 200 VNull) db0).
Proof.
  destruct (proj1 (@genre_director_filter_on_Title libs
                     [Lit "movies"; Param "Genre"; Param "Description"]
                     (path genre_request) genre_request db0 eq_refl)
              registered_genre_route)
    as (_ & _ & Hfilter & Hout).
  destruct (proj2 (@genre_director_filter_on_Title libs
                     [Lit "movies"; Param "Director"]
                     (path director_request) director_request db0 eq_refl)
              registered_director_route)
    as (_ & _ & Hfilter' & Hout').
  split; split; assumption.
Defined.

(** C9: the store has [Alien]; asking for it by title finds none. *)
Lemma title_filter_undefined_sample :
  params title_request !! "title" = Some "Alien" /\
  title_filter title_request = [("Title", VUndefined)] /\
  @get_movie_by_title libs title_request db0 = Done (json 200 VNull) db0.
Proof.
  destruct (@title_filter_undefined libs [Lit "movies"; Param "title"]
              (path title_request) title_request db0
              registered_title_route eq_refl)
    as (_ & _ & _ & Hfilter & Hout).
  split; [reflexivity|]. split; [exact Hfilter | exact Hout].
Defined.

(** C10: [alice12] asks to take [m1] off the favourites of [bob99]; the
    document of [bob99] is gone. *)
Lemma delete_favorite_removes_user_sample :
  exists l1 l2,
    users db0 = l1 ++ bob :: l2 /\
    Forall (fun x => Username x <> "bob99") l1 /\
    @dispatch libs 2000
      (mkRequest DELETE ["users"; "bob99"; "movies"; "m1"]
                 (Some "alice12.jwt") VUndefined ∅ None) db0
    = Some (Some (Done (json 200 (toJSON bob)) (with_users db0 (l1 ++ l2))),
            [Guard; Handler DeleteFavorite]) /\
    S (length (l1 ++ l2)) = length (users db0) /\
    (List.NoDup (List.map Username (users db0)) ->
     Users_findOne (Some "bob99") (l1 ++ l2) = None).
Proof.
  apply (@delete_favorite_removes_user libs 2000 db0 alice bob
           "users" "bob99" "movies" "m1" "alice12.jwt").
  - reflexivity.
  - reflexivity.
  - reflexivity.
  - discriminate.
  - discriminate.
  - reflexivity.
Defined.

(** * Further properties of the guarded routes *)

Section Guarded.
Context `{External}.

(** ** Routing *)

Lemma dispatch_inv (now : Z) (req : Request) (db : Db)
    (out : option Outcome) (ran : list Layer) :
  dispatch now req db = Some (out, ran) ->
  exists r ps,
    find_route routes req = Some (r, ps) /\
    run_stack now (route_stack r) (with_params req ps) db = (out, ran).
Proof.
  unfold dispatch.
  destruct (find_route routes req) as [[r ps]|]; [|discriminate].
  intros [= Hrun]. now exists r, ps.
Qed.

(** Only layers of the stack are entered. *)
Lemma run_stack_ran (now : Z) (stack : list Layer) :
  forall req db out ran l,
    run_stack now stack req db = (out, ran) -> In l ran -> In l stack.
Proof.
  induction stack as [|l0 stack IH]; simpl; intros req db out ran l.
  - intros [= _ <-] [].
  - destruct (run_layer now l0 req db) as [req'| |] eqn:E.
    + destruct (run_stack now stack req' db) as [out' ran'] eqn:E'.
      intros [= _ <-] [->|Hin]; [now left|].
      right. eapply IH; eauto.
    + intros [= _ <-] [->|[]]. now left.
    + intros [= _ <-] [->|[]]. now left.
Qed.

(** Two route paths of the shape [/a/:x] take the same requests. *)
Lemma match_path_same_shape (a x y : string) (segs : list string) :
  match_path [Lit a; Param x] segs = None ->
  match_path [Lit a; Param y] segs = None.
Proof.
  destruct segs as [|s0 [|s1 [|s2 segs]]]; cbn [match_path]; try reflexivity.
  - destruct (String.eqb (lowercase a) (lowercase s0)); reflexivity.
  - destruct (String.eqb (lowercase a) (lowercase s0)); [|reflexivity].
    destruct (String.eqb s1 ""); [reflexivity | discriminate].
  - destruct (String.eqb (lowercase a) (lowercase s0)); [|reflexivity].
    destruct (String.eqb s1 ""); reflexivity.
Qed.

(** X1. [GET /movies/:title] is registered before [GET /movies/:Director]
    and takes every request the latter would take: no request ever enters
    the movie-by-director handler. *)
Theorem director_handler_unreachable (now : Z) (req : Request) (db : Db)
    (out : option Outcome) (ran : list Layer) :
  dispatch now req db = Some (out, ran) ->
  ~ In (Handler GetMovieByDirector) ran.
Proof.
  intros Hd Hin. apply dispatch_inv in Hd as (r & ps & Hf & Hrun).
  apply (run_stack_ran _ _ _ _ _ _ _ Hrun) in Hin. clear Hrun.
  unfold routes in Hf. cbn [find_route] in Hf.
  repeat match type of Hf with
         | match route_matches ?r0 req with _ => _ end = _ =>
             let E := fresh "E" in
             destruct (route_matches r0 req) eqn:E;
             [injection Hf as <- <-; cbn in Hin;
              try (intuition discriminate)|]
         end; try discriminate.
  unfold route_matches in *. cbn [route_method route_path] in *.
  destruct (Method_eqb GET (method req)); [|discriminate].
  match goal with
  | E : match_path [Lit "movies"; Param "title"] _ = None |- _ =>
      apply match_path_same_shape with (y := "Director") in E
  end.
  congruence.
Qed.

(** ** Reading *)

Lemma guard_keeps_store (now : Z) (req : Request) (db : Db) (res : Response)
    (db' : Db) :
  passport_jwt now req db = Done res db' -> db' = db.
Proof.
  unfold passport_jwt. destruct (bearer req) as [presented|].
  - destruct (verify jwtSecret now (users db) presented); [discriminate|].
    now intros [= _ <-].
  - now intros [= _ <-].
Qed.

Lemma guarded_stack_keeps_store (now : Z) (h : HandlerId) (req : Request)
    (db : Db) (res : Response) (db' : Db) (ran : list Layer) :
  (forall req0 res0 db0, handler h req0 db = Done res0 db0 -> db0 = db) ->
  run_stack now [Guard; Handler h] req db = (Some (Done res db'), ran) ->
  db' = db.
Proof.
  intros Hh. cbn [run_stack run_layer].
  destruct (passport_jwt now req db) as [req'| res0 db0 |] eqn:Eg.
  - destruct (handler h req' db) as [req''| res1 db1 |] eqn:Eh.
    + discriminate.
    + intros [= _ <- _]. eapply Hh; eauto.
    + discriminate.
  - intros [= _ <- _]. eapply guard_keeps_store; eauto.
  - discriminate.
Qed.

(** X2. No [GET] through the guarded routes changes the store, whatever
    the credential and whichever route takes the request. *)
Theorem get_requests_keep_store (now : Z) (req : Request) (db : Db)
    (res : Response) (db' : Db) (ran : list Layer) :
  method req = GET ->
  dispatch now req db = Some (Some (Done res db'), ran) ->
  db' = db.
Proof.
  intros Hm Hd. apply dispatch_inv in Hd as (r & ps & Hf & Hrun).
  unfold routes in Hf. cbn [find_route] in Hf.
  repeat match type of Hf with
         | match route_matches ?r0 req with _ => _ end = _ =>
             let E := fresh "E" in
             destruct (route_matches r0 req) eqn:E;
             [injection Hf as <- <-;
              try (unfold route_matches in E; cbn [route_method] in E;
                   rewrite Hm in E; cbn [Method_eqb] in E; discriminate)|]
         end; try discriminate;
    cbn [route_stack] in Hrun;
    (eapply guarded_stack_keeps_store; [|exact Hrun]);
    intros req0 res0 db0; cbn [handler].
  - unfold get_users. now intros [= _ <-].
  - unfold get_user.
    destruct (Users_findOne _ _); now intros [= _ <-].
  - unfold get_movies. now intros [= _ <-].
  - unfold get_movie_by_title. now intros [= _ <-].
  - unfold get_movie_by_genre. now intros [= _ <-].
  - unfold get_movie_by_director. now intros [= _ <-].
Qed.

Lemma stringify_docs (us : list User) :
  List.map (fun x => match x with
                     | VUndefined => VNull
                     | _ => stringify x
                     end) (List.map toJSON us) = List.map toJSON us.
Proof.
  induction us as [|u us IH]; [reflexivity|].
  cbn [List.map]. rewrite IH. f_equal.
  change (stringify (toJSON u) = toJSON u). apply stringify_toJSON.
Qed.

Lemma find_route_get_users (s0 : string) (p : option string) (b : value)
    (ps0 : gmap string string) (u0 : option User) :
  lowercase s0 = "users" ->
  find_route routes (mkRequest GET [s0] p b ps0 u0)
  = Some (mkRoute GET [Lit "users"] [Guard; Handler GetUsers], ∅).
Proof.
  intros Hl. cbn -[insert empty lowercase]. rewrite Hl. reflexivity.
Qed.

Lemma find_route_get_user (s0 name : string) (p : option string) (b : value)
    (ps0 : gmap string string) (u0 : option User) :
  lowercase s0 = "users" -> name <> "" ->
  find_route routes (mkRequest GET [s0; name] p b ps0 u0)
  = Some (mkRoute GET [Lit "users"; Param "username"] [Guard; Handler GetUser],
          <["username" := name]> ∅).
Proof.
  intros Hl Hne. apply neq_eqb in Hne.
  cbn -[insert empty lowercase]. rewrite Hl, Hne. reflexivity.
Qed.

(** X8. [GET /users/:username] answers any verified credential, whoever
    it belongs to: 404 [User not found] exactly when no stored user has the
    name in the path, otherwise 200 with the JSON form of the first stored
    user of that name; the store is untouched either way. *)
Theorem user_lookup_by_name (now : Z) (db : Db) (me : User)
    (s0 name presented : string) (b : value) (ps0 : gmap string string)
    (u0 : option User) :
  verify jwtSecret now (users db) presented = Ok me ->
  lowercase s0 = "users" -> name <> "" ->
  (Users_findOne (Some name) (users db) = None ->
   dispatch now (mkRequest GET [s0; name] (Some presented) b ps0 u0) db
   = Some (Some (Done (send 404 "User not found") db),
           [Guard; Handler GetUser])) /\
  (forall u, Users_findOne (Some name) (users db) = Some u ->
   dispatch now (mkRequest GET [s0; name] (Some presented) b ps0 u0) db
   = Some (Some (Done {| status := 200; content := Json (toJSON u) |} db),
           [Guard; Handler GetUser]) /\
   In u (users db) /\
   Username u = name) /\
  (~ In name (List.map Username (users db)) <->
   Users_findOne (Some name) (users db) = None).
Proof.
  intros Hv Hl Hne.
  assert (Hd : dispatch now (mkRequest GET [s0; name] (Some presented) b ps0 u0) db
               = Some (Some (match Users_findOne (Some name) (users db) with
                             | None => Done (send 404 "User not found") db
                             | Some u => Done (json 200 (toJSON u)) db
                             end), [Guard; Handler GetUser])).
  { unfold dispatch. rewrite find_route_get_user by assumption.
    cbn [route_stack run_stack run_layer handler].
    erewrite guard_passes; [|reflexivity|exact Hv].
    unfold get_user. cbn [params with_user with_params].
    rewrite lookup_insert_eq.
    now destruct (Users_findOne (Some name) (users db)). }
  split; [|split].
  - intros Hnone. now rewrite Hd, Hnone.
  - intros u Hu. rewrite Hd, Hu. unfold json. rewrite stringify_toJSON.
    split; [reflexivity|]. now apply find_first_In in Hu.
  - split; [apply find_none|].
    intros Hnone Hin. apply in_map_iff in Hin as (u & Hu & Hin).
    unfold Users_findOne in Hnone.
    apply (List.find_none _ _ Hnone) in Hin. simpl in Hin.
    apply String.eqb_neq in Hin. contradiction.
Qed.

(** ** Writing *)

Lemma verify_ok_inv (secret : string) (now : Z) (us : list User)
    (presented : string) (u : User) :
  verify secret now us presented = Ok u ->
  exists tok,
    jwt_decode presented = Some tok /\
    validate secret now presented = Ok tok /\
    Users_findOne (Some (sub (claims tok))) us = Some u /\
    Username u = sub (claims tok).
Proof.
  unfold verify.
  destruct (validate secret now presented) as [tok|e] eqn:Ev; [|discriminate].
  destruct (Users_findOne (Some (sub (claims tok))) us) as [u'|] eqn:Eu;
    [|discriminate].
  intros [= ->]. exists tok.
  pose proof (proj1 (validate_ok_iff _ _ _ _) Ev) as (Hd & _).
  repeat split; try assumption. now apply find_first_In in Eu.
Qed.

(** The verified identity is the stored user the lookup by its own name
    finds. *)
Lemma verified_is_stored (secret : string) (now : Z) (us : list User)
    (presented : string) (u : User) :
  verify secret now us presented = Ok u ->
  Users_findOne (Some (Username u)) us = Some u.
Proof.
  intros Hv. apply verify_ok_inv in Hv as (tok & _ & _ & Hf & Hn).
  now rewrite Hn.
Qed.

Lemma strict_ne_same (a : string) : strict_ne a (Some a) = false.
Proof. simpl. now rewrite String.eqb_refl. Qed.

Lemma with_users_same (db : Db) : with_users db (users db) = db.
Proof. now destruct db. Qed.

Lemma update_first_split (name : string) (f : User -> User) (us : list User)
    (u : User) :
  Users_findOne (Some name) us = Some u ->
  exists l1 l2,
    us = l1 ++ u :: l2 /\
    Forall (fun x => Username x <> name) l1 /\
    update_first name f us = l1 ++ f u :: l2.
Proof.
  unfold Users_findOne.
  induction us as [|v us IH]; simpl; [discriminate|].
  destruct (String.eqb (Username v) name) eqn:E.
  - intros [= ->]. exists [], us. repeat split. constructor.
  - intros Hf. destruct (IH Hf) as (l1 & l2 & -> & Hall & ->).
    exists (v :: l1), l2. repeat split.
    constructor; [now apply String.eqb_neq | exact Hall].
Qed.

Lemma update_first_absent (name : string) (f : User -> User) (us : list User) :
  Users_findOne (Some name) us = None -> update_first name f us = us.
Proof.
  unfold Users_findOne.
  induction us as [|v us IH]; simpl; [reflexivity|].
  destruct (String.eqb (Username v) name); [discriminate|].
  intros Hf. now rewrite IH.
Qed.

(** X3. A user who deletes the own account ([DELETE /users/<own name>]
    with a verified credential) is always answered 200
    [<name> was deleted], never 404: the first document under the name is
    taken out of the collection, and when usernames are unique the
    credential verifies at no later time against what is left. *)
Theorem delete_own_account (now : Z) (db : Db) (me : User)
    (s0 presented : string) (b : value) (ps0 : gmap string string)
    (u0 : option User) :
  verify jwtSecret now (users db) presented = Ok me ->
  lowercase s0 = "users" ->
  Username me <> "" ->
  dispatch now
    (mkRequest DELETE [s0; Username me] (Some presented) b ps0 u0) db
  = Some (Some (Done (send 200 (Username me +:+ " was deleted"))
                     (with_users db (remove_first (Username me) (users db)))),
          [Guard; Handler DeleteUser]) /\
  S (length (remove_first (Username me) (users db))) = length (users db) /\
  (List.NoDup (List.map Username (users db)) ->
   forall t,
     is_ok (verify jwtSecret t (remove_first (Username me) (users db))
                   presented) = false).
Proof.
  intros Hv Hl Hne.
  pose proof (verified_is_stored _ _ _ _ _ Hv) as Hstored.
  split; [|split].
  - unfold dispatch. rewrite find_route_delete_user by assumption.
    cbn [route_stack run_stack run_layer handler].
    erewrite guard_passes; [|reflexivity|exact Hv].
    unfold delete_user, Users_findOneAndRemove, param_text.
    cbn [user params with_user with_params].
    rewrite lookup_insert_eq, strict_ne_same, Hstored. reflexivity.
  - destruct (remove_first_split _ _ _ Hstored) as (l1 & l2 & Hus & _ & ->).
    rewrite Hus, !length_app. simpl. lia.
  - intros Hnd t.
    apply verify_ok_inv in Hv as (tok & Hd & _ & _ & Hn).
    unfold verify, validate. rewrite Hd.
    destruct (negb (signature_verifies jwtSecret tok)); [reflexivity|].
    destruct (exp (claims tok) <=? t); [reflexivity|].
    rewrite <- Hn. now rewrite remove_first_gone.
Qed.

(** The update document of [PUT /users/:username]. *)
Lemma put_user_own (req : Request) (db : Db) (me : User) :
  user req = Some me ->
  params req !! "username" = Some (Username me) ->
  Users_findOne (Some (Username me)) (users db) = Some me ->
  put_user req db
  = match cast_update (SetFields [("Username", get "Username" (body req));
                                  ("Password", get "Password" (body req));
                                  ("Email", get "Email" (body req));
                                  ("Birthday", get "Birthday" (body req))]) with
    | Err msg => Done (send 500 ("Error: " +:+ msg)) db
    | Ok f =>
        Done (json 200 (toJSON (f me)))
             (with_users db (update_first (Username me) f (users db)))
    end.
Proof.
  intros Hu Hp Hf. unfold put_user, Users_findOneAndUpdate.
  rewrite Hu, Hp, strict_ne_same, Hf.
  now destruct (cast_update _).
Qed.

Lemma dispatch_put_own (now : Z) (db : Db) (me : User)
    (s0 presented : string) (b : value) (ps0 : gmap string string)
    (u0 : option User) :
  verify jwtSecret now (users db) presented = Ok me ->
  lowercase s0 = "users" ->
  Username me <> "" ->
  dispatch now (mkRequest PUT [s0; Username me] (Some presented) b ps0 u0) db
  = Some (Some
            match cast_update (SetFields [("Username", get "Username" b);
                                          ("Password", get "Password" b);
                                          ("Email", get "Email" b);
                                          ("Birthday", get "Birthday" b)]) with
            | Err msg => Done (send 500 ("Error: " +:+ msg)) db
            | Ok f =>
                Done (json 200 (toJSON (f me)))
                     (with_users db (update_first (Username me) f (users db)))
            end,
          [Guard; Validators; Handler PutUser]).
Proof.
  intros Hv Hl Hne.
  pose proof (verified_is_stored _ _ _ _ _ Hv) as Hstored.
  unfold dispatch. rewrite find_route_put_user by assumption.
  cbn [route_stack run_stack run_layer handler].
  erewrite guard_passes; [|reflexivity|exact Hv].
  rewrite put_user_own with (me := me); [|reflexivity| |exact Hstored].
  - cbn [body with_user with_params]. now destruct (cast_update _).
  - cbn [params with_user with_params]. now rewrite lookup_insert_eq.
Qed.

(** X4. A user who updates the own profile ([PUT /users/<own name>] with
    a verified credential): when Mongoose casts the update to a change [f],
    the answer is 200 with the changed document and the collection is the
    old one with [f] applied to that user's document, every other document
    and the order untouched; when the cast fails the answer is 500 and the
    store is as before. The update carries the four body fields as sent:
    [Password] goes in without [hashPassword]. *)
Theorem put_own_profile (now : Z) (db : Db) (me : User)
    (s0 presented : string) (b : value) (ps0 : gmap string string)
    (u0 : option User) :
  verify jwtSecret now (users db) presented = Ok me ->
  lowercase s0 = "users" ->
  Username me <> "" ->
  (forall f,
     cast_update (SetFields [("Username", get "Username" b);
                             ("Password", get "Password" b);
                             ("Email", get "Email" b);
                             ("Birthday", get "Birthday" b)]) = Ok f ->
     exists l1 l2,
       users db = l1 ++ me :: l2 /\
       Forall (fun x => Username x <> Username me) l1 /\
       dispatch now
         (mkRequest PUT [s0; Username me] (Some presented) b ps0 u0) db
       = Some (Some (Done {| status := 200; content := Json (toJSON (f me)) |}
                          (with_users db (l1 ++ f me :: l2))),
               [Guard; Validators; Handler PutUser])) /\
  (forall msg,
     cast_update (SetFields [("Username", get "Username" b);
                             ("Password", get "Password" b);
                             ("Email", get "Email" b);
                             ("Birthday", get "Birthday" b)]) = Err msg ->
     dispatch now
       (mkRequest PUT [s0; Username me] (Some presented) b ps0 u0) db
     = Some (Some (Done (send 500 ("Error: " +:+ msg)) db),
             [Guard; Validators; Handler PutUser])).
Proof.
  intros Hv Hl Hne.
  pose proof (dispatch_put_own now db me s0 presented b ps0 u0 Hv Hl Hne) as Hd.
  split.
  - intros f Hc. rewrite Hc in Hd.
    pose proof (verified_is_stored _ _ _ _ _ Hv) as Hstored.
    destruct (update_first_split _ f _ _ Hstored) as (l1 & l2 & Hus & Hall & Hup).
    exists l1, l2. split; [exact Hus|]. split; [exact Hall|].
    rewrite Hd, Hup. unfold json. now rewrite stringify_toJSON.
  - intros msg Hc. now rewrite Hc in Hd.
Qed.

(** X5. [PUT /users/:username] never looks whether the new username is
    taken: when the update gives the requester the username of another
    stored user, the answer is still 200 and the collection afterwards
    holds two documents under that username. *)
Theorem put_can_duplicate_username (now : Z) (db : Db) (me other : User)
    (s0 presented : string) (b : value) (ps0 : gmap string string)
    (u0 : option User) (f : User -> User) :
  verify jwtSecret now (users db) presented = Ok me ->
  lowercase s0 = "users" ->
  Username me <> "" ->
  cast_update (SetFields [("Username", get "Username" b);
                          ("Password", get "Password" b);
                          ("Email", get "Email" b);
                          ("Birthday", get "Birthday" b)]) = Ok f ->
  In other (users db) ->
  Username other <> Username me ->
  Username (f me) = Username other ->
  exists db',
    dispatch now (mkRequest PUT [s0; Username me] (Some presented) b ps0 u0) db
    = Some (Some (Done (json 200 (toJSON (f me))) db'),
            [Guard; Validators; Handler PutUser]) /\
    In other (users db') /\ In (f me) (users db') /\
    ~ List.NoDup (List.map Username (users db')).
Proof.
  intros Hv Hl Hne Hc Hin Hother Hsame.
  pose proof (dispatch_put_own now db me s0 presented b ps0 u0 Hv Hl Hne) as Hd.
  rewrite Hc in Hd.
  pose proof (verified_is_stored _ _ _ _ _ Hv) as Hstored.
  destruct (update_first_split _ f _ _ Hstored) as (l1 & l2 & Hus & Hall & Hup).
  exists (with_users db (l1 ++ f me :: l2)). rewrite Hd, Hup.
  split; [reflexivity|]. cbn [users with_users].
  rewrite Hus in Hin. apply in_app_or in Hin.
  assert (Hin' : In other l1 \/ In other l2).
  { destruct Hin as [Hin|[Heq|Hin]]; [now left| |now right].
    subst other. now contradiction Hother. }
  split; [|split].
  - apply in_or_app. destruct Hin' as [Hin'|Hin']; [now left|].
    right. now right.
  - apply in_or_app. right. now left.
  - rewrite map_app. cbn [List.map]. intros Hnd.
    apply List.NoDup_remove_2 in Hnd. apply Hnd. rewrite Hsame.
    apply in_or_app.
    destruct Hin' as [Hin'|Hin']; [left|right]; now apply in_map.
Qed.

Lemma find_route_post_favorite (s0 name s2 m : string) (p : option string)
    (b : value) (ps0 : gmap string string) (u0 : option User) :
  lowercase s0 = "users" -> lowercase s2 = "movies" ->
  name <> "" -> m <> "" ->
  find_route routes (mkRequest POST [s0; name; s2; m] p b ps0 u0)
  = Some (mkRoute POST
                  [Lit "users"; Param "Username"; Lit "movies"; Param "MovieId"]
                  [Guard; Handler PostFavorite],
          <["Username" := name]> (<["MovieId" := m]> ∅)).
Proof.
  intros Hl0 Hl2 Hn Hm. apply neq_eqb in Hn, Hm.
  cbn -[insert empty lowercase]. rewrite Hl0, Hl2, Hn, Hm. reflexivity.
Qed.

(** X6. [POST /users/:Username/movies/:MovieId] has no owner check: for
    any verified requester, the push of the movie identifier is applied to
    the first document under the name in the path, which is sent back with
    the rest of the collection untouched; when no user has the name the
    answer is 200 [null] and the store is unchanged; when the identifier
    does not cast the answer is 500 and the store is unchanged. *)
Theorem post_favorite_any_requester (now : Z) (db : Db) (me : User)
    (s0 name s2 m presented : string) (b : value) (ps0 : gmap string string)
    (u0 : option User) :
  verify jwtSecret now (users db) presented = Ok me ->
  lowercase s0 = "users" -> lowercase s2 = "movies" ->
  name <> "" -> m <> "" ->
  (forall f u,
     cast_update (PushField "FavoriteMovies" (VStr m)) = Ok f ->
     Users_findOne (Some name) (users db) = Some u ->
     exists l1 l2,
       users db = l1 ++ u :: l2 /\
       Forall (fun x => Username x <> name) l1 /\
       dispatch now
         (mkRequest POST [s0; name; s2; m] (Some presented) b ps0 u0) db
       = Some (Some (Done {| status := 200; content := Json (toJSON (f u)) |}
                          (with_users db (l1 ++ f u :: l2))),
               [Guard; Handler PostFavorite])) /\
  (forall f,
     cast_update (PushField "FavoriteMovies" (VStr m)) = Ok f ->
     Users_findOne (Some name) (users db) = None ->
     dispatch now
       (mkRequest POST [s0; name; s2; m] (Some presented) b ps0 u0) db
     = Some (Some (Done {| status := 200; content := Json VNull |} db),
             [Guard; Handler PostFavorite])) /\
  (forall msg,
     cast_update (PushField "FavoriteMovies" (VStr m)) = Err msg ->
     dispatch now
       (mkRequest POST [s0; name; s2; m] (Some presented) b ps0 u0) db
     = Some (Some (Done (send 500 ("Error: " +:+ msg)) db),
             [Guard; Handler PostFavorite])).
Proof.
  intros Hv Hl0 Hl2 Hn Hm.
  assert (Hd : dispatch now
                 (mkRequest POST [s0; name; s2; m] (Some presented) b ps0 u0) db
               = Some (Some
                   match cast_update (PushField "FavoriteMovies" (VStr m)) with
                   | Err msg => Done (send 500 ("Error: " +:+ msg)) db
                   | Ok f =>
                       Done (json 200 (doc_json (f <$> Users_findOne (Some name)
                                                         (users db))))
                            (with_users db (update_first name f (users db)))
                   end, [Guard; Handler PostFavorite])).
  { unfold dispatch. rewrite find_route_post_favorite by assumption.
    cbn [route_stack run_stack run_layer handler].
    erewrite guard_passes; [|reflexivity|exact Hv].
    unfold post_favorite, param_value, Users_findOneAndUpdate.
    cbn [params with_user with_params].
    rewrite lookup_insert_eq.
    rewrite lookup_insert_ne by discriminate. rewrite lookup_insert_eq.
    now destruct (cast_update _). }
  split; [|split].
  - intros f u Hc Hu. rewrite Hc, Hu in Hd.
    destruct (update_first_split _ f _ _ Hu) as (l1 & l2 & Hus & Hall & Hup).
    exists l1, l2. split; [exact Hus|]. split; [exact Hall|].
    rewrite Hd, Hup. unfold json. cbn [doc_json fmap option_fmap option_map].
    now rewrite stringify_toJSON.
  - intros f Hc Hu. rewrite Hc, Hu in Hd.
    rewrite update_first_absent in Hd by exact Hu.
    now rewrite with_users_same in Hd.
  - intros msg Hc. now rewrite Hc in Hd.
Qed.

End Guarded.

(** * Further properties of issuance and login *)

Section Issuance.
Context `{External}.

Lemma prop_get_absent (k : string) (props : list (string * value)) :
  has_key k props = false -> prop_get k props = VUndefined.
Proof.
  unfold has_key. induction props as [|[k' v] props IH]; simpl; [reflexivity|].
  destruct (String.eqb k' k); [discriminate | exact IH].
Qed.

Lemma time_claim_ok_iff (k : string) (props : list (string * value)) :
  time_claim_ok k props = true <->
  has_key k props = false \/ exists n, prop_get k props = VNum n.
Proof.
  unfold time_claim_ok. destruct (has_key k props) eqn:Ek; simpl.
  - destruct (prop_get k props) as [| | |n| | |]; split;
      try discriminate; eauto;
      intros [Hf|[m Hm]]; discriminate.
  - split; [now left | reflexivity].
Qed.



(** X10. [generateJWTToken] issues a token exactly for an object with a
    string [Username], with no [exp] property at all, no defined [sub], and
    with [iat] and [nbf] either absent or numbers: for anything else
    [jwt.sign] throws. *)
Theorem token_issued_iff (user : value) (now : Z) :
  is_ok (generateJWTToken user now) = true <->
  exists props s,
    user = VObj props /\
    prop_get "Username" props = VStr s /\
    has_key "exp" props = false /\
    prop_get "sub" props = VUndefined /\
    (has_key "iat" props = false \/ exists n, prop_get "iat" props = VNum n) /\
    (has_key "nbf" props = false \/ exists n, prop_get "nbf" props = VNum n).
Proof.
  unfold generateJWTToken, jwt_sign. cbn [subject expiresIn algorithm].
  change (negb (String.eqb "HS256" "HS256")) with false.
  change (timespan "7d") with (Some 604800).
  split.
  - destruct user as [| | | | |items|props]; try discriminate.
    destruct (time_claim_ok "iat" props) eqn:Ei; [|discriminate].
    destruct (time_claim_ok "exp" props) eqn:Ee; [|discriminate].
    destruct (time_claim_ok "nbf" props) eqn:En; [|discriminate].
    cbn [andb negb].
    destruct (defined (prop_get "exp" props)) eqn:Ed; [discriminate|].
    cbn [get]. destruct (prop_get "Username" props) as [| | | |s| |] eqn:Eu;
      try discriminate.
    cbn match.
    destruct (issue_time props now) as [t|]; [|discriminate].
    destruct (prop_get "sub" props) eqn:Es; try discriminate.
    intros _. exists props, s.
    apply time_claim_ok_iff in Ei, Ee, En.
    repeat split; try assumption.
    destruct Ee as [Ee|[n Ee]]; [exact Ee|].
    rewrite Ee in Ed. discriminate.
  - intros (props & s & -> & Hu & He & Hs & Hi & Hn).
    assert (Hi' : time_claim_ok "iat" props = true)
      by now apply time_claim_ok_iff.
    assert (Hn' : time_claim_ok "nbf" props = true)
      by now apply time_claim_ok_iff.
    assert (He' : time_claim_ok "exp" props = true)
      by (apply time_claim_ok_iff; now left).
    rewrite Hi', He', Hn'. cbn [andb negb].
    rewrite (prop_get_absent _ _ He). cbn [defined get]. rewrite Hu, Hs.
    cbn [defined]. cbn match. unfold issue_time.
    destruct Hi as [Hi|[n Hi]].
    + now rewrite (prop_get_absent _ _ Hi).
    + now rewrite Hi.
Qed.

Lemma login_keeps_store (now : Z) (req : Request) (db : Db) :
  exists res, login now req db = Done res db.
Proof.
  unfold login, passport_local.
  destruct (credential "username" req) as [name|];
    [|eexists; reflexivity].
  destruct (credential "password" req) as [plaintext|];
    [|eexists; reflexivity].
  destruct (authenticate (users db) name plaintext) as [u|e];
    [|eexists; reflexivity].
  unfold login_callback. cbn [truthy user_truthy negb orb].
  rewrite generateJWTToken_doc. eexists. reflexivity.
Qed.

(** X11. Login, then access: when a login succeeds, the token in its
    answer (as far as the wire encoding gives the token back) opens
    [GET /users] at any time within seven days, as long as the store is the
    same: the answer is 200 with every stored user. *)
Theorem login_then_access (now t : Z) (db : Db) (req : Request)
    (name plaintext s0 : string) (u : User) (b : value)
    (ps0 : gmap string string) (u0 : option User) :
  credential "username" req = Some name ->
  credential "password" req = Some plaintext ->
  authenticate (users db) name plaintext = Ok u ->
  jwt_decode (jwt_encode (issued u now)) = Some (issued u now) ->
  t < now + days 7 ->
  lowercase s0 = "users" ->
  exists res presented,
    login now req db = Done res db /\
    status res = 200 /\
    body_member "token" res = VStr presented /\
    dispatch t (mkRequest GET [s0] (Some presented) b ps0 u0) db
    = Some (Some (Done {| status := 200;
                          content := Json (VArr (List.map toJSON (users db))) |}
                       db),
            [Guard; Handler GetUsers]).
Proof.
  intros Hn Hp Ha Hwire Ht Hl.
  eexists. exists (jwt_encode (issued u now)).
  split; [eapply login_success; eassumption|].
  split; [reflexivity|]. split; [reflexivity|].
  assert (Hu : Users_findOne (Some name) (users db) = Some u).
  { unfold authenticate in Ha.
    destruct (Users_findOne (Some name) (users db)) as [v|]; [|discriminate].
    destruct (compareSync plaintext (Password v)); [|discriminate].
    now inversion Ha. }
  assert (Hname : Username u = name) by now apply find_first_In in Hu.
  assert (Hv : verify jwtSecret t (users db) (jwt_encode (issued u now)) = Ok u).
  { apply verify_live with (tok := issued u now).
    - exact Hwire.
    - apply issued_signature.
    - exact Ht.
    - cbn [issued claims sub]. now rewrite Hname. }
  unfold dispatch. rewrite find_route_get_users by exact Hl.
  cbn [route_stack run_stack run_layer handler].
  erewrite guard_passes; [|reflexivity|exact Hv].
  unfold get_users, json. cbn [stringify]. now rewrite stringify_docs.
Qed.

End Issuance.

(** * Properties of CORS, registration and the app *)

Section Whole.
Context `{External} `{Registration} `{PublicFiles}.

(** X12. The CORS check lets a request through exactly when it has no
    origin (no header, or an empty one) or its origin is, character for
    character, one of the three allowed; otherwise it raises an error whose
    message ends with the origin. It never answers [callback(null, false)]. *)
Theorem cors_origin_allows_iff (origin : option string) :
  (cors_origin origin = Ok true <->
   origin = None \/ origin = Some "" \/
   exists o, origin = Some o /\ In o allowedOrigins) /\
  cors_origin origin <> Ok false /\
  (forall msg, cors_origin origin = Err msg ->
     exists o, origin = Some o /\ o <> "" /\ ~ In o allowedOrigins /\
       msg = "The CORS policy for this application doesn’t allow access from origin "
             +:+ o).
Proof.
  unfold cors_origin. destruct origin as [o|].
  - destruct (String.eqb o "") eqn:Ee.
    + apply String.eqb_eq in Ee. subst o.
      repeat split; eauto; discriminate.
    + apply String.eqb_neq in Ee.
      destruct (List.existsb (String.eqb o) allowedOrigins) eqn:Ex.
      * apply existsb_exists in Ex as (a & Hin & Ha).
        apply String.eqb_eq in Ha. subst a.
        repeat split; eauto; discriminate.
      * assert (Hnot : ~ In o allowedOrigins).
        { intros Hin. apply not_true_iff_false in Ex. apply Ex.
          apply existsb_exists. exists o. split; [exact Hin|].
          apply String.eqb_refl. }
        split; [|split].
        -- split; [discriminate|].
           intros [Hn|[He|(a & [= <-] & Hin)]]; [discriminate| |contradiction].
           inversion He. congruence.
        -- discriminate.
        -- intros msg [= <-]. exists o. now repeat split.
  - repeat split; eauto; discriminate.
Qed.

(** X13. A request from an origin that is not allowed is answered 500
    [Something broke!] by the error-handling middleware, whatever its
    method, path, credential and body, and the store is untouched; only
    [GET /], registered before the CORS check, answers it as it answers
    everyone. *)
Theorem disallowed_origin_blocked (now : Z) (o : string) (req : Request)
    (db : Db) :
  o <> "" -> ~ In o allowedOrigins ->
  (takes GET [] req = true ->
   app now (Some o) req db = Some (Done landing db)) /\
  (takes GET [] req = false ->
   app now (Some o) req db = Some (Done something_broke db)).
Proof.
  intros Hne Hnot. unfold app.
  assert (Hc : exists msg, cors_origin (Some o) = Err msg).
  { unfold cors_origin. apply neq_eqb in Hne. rewrite Hne.
    destruct (List.existsb (String.eqb o) allowedOrigins) eqn:Ex; [|eauto].
    apply existsb_exists in Ex as (a & Hin & Ha).
    apply String.eqb_eq in Ha. subst a. contradiction. }
  destruct Hc as [msg Hc]. rewrite Hc.
  split; intros ->; reflexivity.
Qed.

(** ** Registration *)

Lemma validation_passes_iff (req : Request) :
  validationResult user_checks req = [] <->
  rule_passes (IsLength 5 10) (check_text (get "Username" (body req))) = true /\
  rule_passes IsAlphanumeric (check_text (get "Username" (body req))) = true /\
  rule_passes NotEmpty (check_text (get "Password" (body req))) = true /\
  rule_passes IsEmail (check_text (get "Email" (body req))) = true.
Proof.
  unfold validationResult, user_checks.
  cbn [List.flat_map check_field check_rule].
  destruct (rule_passes (IsLength 5 10) _);
    destruct (rule_passes IsAlphanumeric _);
    destruct (rule_passes NotEmpty _);
    destruct (rule_passes IsEmail _);
    cbn [app]; split; try discriminate; try tauto;
    intros (? & ? & ? & ?); discriminate.
Qed.

(** X14. A registration whose username (as text) has fewer than 5 or more
    than 10 characters or a character that is no letter or digit, whose
    password is empty or absent, or whose email is not one, is answered 422
    with the entries of the failed checks: nothing is hashed, looked up or
    stored. *)
Theorem registration_invalid_rejected (req : Request) (db : Db) :
  (String.length (check_text (get "Username" (body req))) < 5)%nat \/
  (10 < String.length (check_text (get "Username" (body req))))%nat \/
  all_chars is_alnum (check_text (get "Username" (body req))) = false \/
  check_text (get "Password" (body req)) = "" \/
  isEmail (check_text (get "Email" (body req))) = false ->
  exists e errors,
    validationResult user_checks req = e :: errors /\
    post_users req db
    = Done (json 422 (VObj [("errors", VArr (e :: errors))])) db.
Proof.
  intros Hbad.
  destruct (validationResult user_checks req) as [|e errors] eqn:Ev.
  - exfalso. apply validation_passes_iff in Ev as (Hlen & Halnum & Hpw & Hem).
    cbn [rule_passes] in *.
    apply andb_true_iff in Hlen as [Hmin Hmax].
    apply Nat.leb_le in Hmin, Hmax.
    apply andb_true_iff in Halnum as [_ Hall].
    apply negb_true_iff, String.eqb_neq in Hpw.
    destruct Hbad as [Hb|[Hb|[Hb|[Hb|Hb]]]]; try lia; congruence.
  - exists e, errors. split; [reflexivity|].
    unfold post_users. now rewrite Ev.
Qed.

(** X15. Whenever a registration is answered 201, or changes the store at
    all, its username (as text) has 5 to 10 characters, all of them letters
    or digits, its password is a non-empty string and its email passed
    [isEmail]; the new collection is the old one with one document
    appended. *)
Theorem registration_only_when_valid (req : Request) (db : Db)
    (res : Response) (db' : Db) :
  post_users req db = Done res db' ->
  status res = 201 \/ db' <> db ->
  (5 <= String.length (check_text (get "Username" (body req))) <= 10)%nat /\
  all_chars is_alnum (check_text (get "Username" (body req))) = true /\
  (exists plaintext,
     get "Password" (body req) = VStr plaintext /\ plaintext <> "") /\
  isEmail (check_text (get "Email" (body req))) = true /\
  exists newUser,
    users db' = users db ++ [newUser] /\ movies db' = movies db /\
    res = json 201 (toJSON newUser).
Proof.
  unfold post_users.
  destruct (validationResult user_checks req) as [|e errors] eqn:Ev.
  - apply validation_passes_iff in Ev as (Hlen & Halnum & Hpw & Hem).
    cbn [rule_passes] in *.
    apply andb_true_iff in Hlen as [Hmin Hmax].
    apply Nat.leb_le in Hmin, Hmax.
    apply andb_true_iff in Halnum as [_ Hall].
    apply negb_true_iff, String.eqb_neq in Hpw.
    destruct (get "Password" (body req)) as [| | | |plaintext| |] eqn:Ep;
      try discriminate.
    cbn [check_text] in Hpw.
    destruct (username_query (get "Username" (body req))) as [q|msg].
    + destruct (Users_findOne q (users db)) as [u|].
      * intros [= <- <-] [Hs|Hd]; [discriminate | contradiction].
      * destruct (create_user _) as [newUser|msg].
        -- intros [= <- <-] _. repeat split; eauto; lia.
        -- intros [= <- <-] [Hs|Hd]; [discriminate | contradiction].
    + intros [= <- <-] [Hs|Hd]; [discriminate | contradiction].
  - intros [= <- <-] [Hs|Hd]; [discriminate | contradiction].
Qed.

Lemma find_none_not_in (name : string) (us : list User) :
  Users_findOne (Some name) us = None -> ~ In name (List.map Username us).
Proof.
  unfold Users_findOne. intros Hf Hin.
  apply in_map_iff in Hin as (u & Hu & Hin).
  apply (List.find_none _ _ Hf) in Hin. simpl in Hin.
  apply String.eqb_neq in Hin. contradiction.
Qed.

Lemma find_appended (name : string) (us : list User) (u : User) :
  Users_findOne (Some name) us = None -> Username u = name ->
  Users_findOne (Some name) (us ++ [u]) = Some u.
Proof.
  unfold Users_findOne.
  induction us as [|v us IH]; simpl; intros Hf Hn.
  - rewrite Hn. now rewrite String.eqb_refl.
  - destruct (String.eqb (Username v) name); [discriminate|]. now apply IH.
Qed.

(** X16. A registration that passes the checks under a username a stored
    user already has is answered 400 [<name> already exists]; nothing is
    created and the store is as before. *)
Theorem registration_duplicate_refused (req : Request) (db : Db)
    (name plaintext : string) (u : User) :
  validationResult user_checks req = [] ->
  get "Username" (body req) = VStr name ->
  get "Password" (body req) = VStr plaintext ->
  Users_findOne (Some name) (users db) = Some u ->
  post_users req db = Done (send 400 (name +:+ " already exists")) db.
Proof.
  intros Hv Hn Hp Hu. unfold post_users.
  rewrite Hv, Hp, Hn. cbn [username_query concat_text]. now rewrite Hu.
Qed.

(** X17. Registration keeps usernames unique: when they are unique in the
    store and the created document carries the username it was given, they
    are unique in the store after any registration request, whatever its
    answer. *)
Theorem registration_keeps_usernames_unique (req : Request) (db : Db)
    (res : Response) (db' : Db) :
  (forall fields newUser,
     create_user fields = Ok newUser ->
     prop_get "Username" fields = VStr (Username newUser)) ->
  List.NoDup (List.map Username (users db)) ->
  post_users req db = Done res db' ->
  List.NoDup (List.map Username (users db')).
Proof.
  intros Hcreate Hnd. unfold post_users.
  destruct (validationResult user_checks req); [|now intros [= _ <-]].
  destruct (get "Password" (body req)); try discriminate.
  destruct (username_query (get "Username" (body req))) as [q|msg] eqn:Eq;
    [|now intros [= _ <-]].
  destruct (Users_findOne q (users db)) as [u|] eqn:Ef; [now intros [= _ <-]|].
  destruct (create_user _) as [newUser|msg] eqn:Ec; [|now intros [= _ <-]].
  intros [= _ <-]. cbn [users with_users].
  apply Hcreate in Ec. cbn [prop_get] in Ec.
  change (String.eqb "Username" "Username") with true in Ec. cbn match in Ec.
  rewrite Ec in Eq. cbn [username_query] in Eq. inversion Eq; subst q.
  rewrite map_app. cbn [List.map].
  apply List.NoDup_app.
  - exact Hnd.
  - repeat constructor. intros [].
  - intros x Hx [<-|[]]. now apply find_none_not_in in Ef.
Qed.

(** X18. Register, then log in: after a registration answered 201 whose
    document carries the given username and the hash [hashPassword] made
    of the given password, a login with that username and password (bcrypt
    verifying the password against its own hash) succeeds on the new store
    and is answered 200 with that document. *)
Theorem register_then_login (now : Z) (req lreq : Request) (db : Db)
    (name plaintext : string) (newUser : User) :
  validationResult user_checks req = [] ->
  get "Username" (body req) = VStr name ->
  get "Password" (body req) = VStr plaintext ->
  Users_findOne (Some name) (users db) = None ->
  create_user [("Username", VStr name);
               ("Password", VStr (hashPassword plaintext));
               ("Email", get "Email" (body req));
               ("Birthday", get "Birthday" (body req))] = Ok newUser ->
  Username newUser = name ->
  Password newUser = hashPassword plaintext ->
  compareSync plaintext (hashPassword plaintext) = true ->
  credential "username" lreq = Some name ->
  credential "password" lreq = Some plaintext ->
  exists db' tok,
    post_users req db = Done (json 201 (toJSON newUser)) db' /\
    users db' = users db ++ [newUser] /\
    generateJWTToken (toJSON newUser) now = Ok tok /\
    login now lreq db'
    = Done {| status := 200;
              content := Json (VObj [("user", toJSON newUser);
                                     ("token", VStr (jwt_encode tok))]) |}
           db'.
Proof.
  intros Hv Hn Hp Hf Hc Hname Hpw Hbc Hln Hlp.
  exists (with_users db (users db ++ [newUser])), (issued newUser now).
  split; [|split; [reflexivity|split; [apply generateJWTToken_doc|]]].
  - unfold post_users. rewrite Hv, Hp, Hn. cbn [username_query].
    now rewrite Hf, Hc.
  - eapply login_success; [exact Hln|exact Hlp|].
    unfold authenticate. cbn [users with_users].
    rewrite (find_appended name (users db) newUser Hf Hname).
    now rewrite Hpw, Hbc.
Qed.

(** ** Without a credential *)

Lemma dispatch_no_credential (now : Z) (req : Request) (db : Db)
    (out : option Outcome) (ran : list Layer) :
  bearer req = None ->
  dispatch now req db = Some (out, ran) ->
  out = Some (Done unauthorized db).
Proof.
  intros Hb Hd. apply dispatch_inv in Hd as (r & ps & Hf & Hrun).
  apply find_route_In in Hf as [Hin _].
  destruct (routes_guarded r Hin) as [rest Hrest].
  rewrite Hrest, run_stack_rejected in Hrun by now left.
  now inversion Hrun.
Qed.

(** X19. A request without a bearer credential changes the store only as
    a registration: through the whole app, from any origin, whatever else
    takes it (the landing page, the error handler, login, a static file,
    the guard) leaves the store as it was. *)
Theorem uncredentialed_changes_only_by_registration (now : Z)
    (origin : option string) (req : Request) (db : Db) (res : Response)
    (db' : Db) :
  bearer req = None ->
  app now origin req db = Some (Done res db') ->
  db' <> db ->
  takes POST [Lit "users"] req = true /\
  post_users req db = Done res db'.
Proof.
  intros Hb. unfold app.
  destruct (takes GET [] req); [intros [= _ <-] Hd; contradiction|].
  destruct (cors_origin origin); [|intros [= _ <-] Hd; contradiction].
  destruct (takes POST [Lit "login"] req).
  { destruct (login_keeps_store now req db) as [res0 ->].
    intros [= _ <-] Hd. contradiction. }
  destruct (if Method_eqb GET (method req) then public_file (path req) else None).
  { intros [= _ <-] Hd. contradiction. }
  destruct (takes POST [Lit "users"] req).
  { intros [= Hp] _. now split. }
  destruct (dispatch now req db) as [[[out|] ran]|] eqn:Ed; try discriminate.
  apply dispatch_no_credential in Ed; [|exact Hb].
  inversion Ed; subst out. intros [= _ <-] Hd. contradiction.
Qed.

End Whole.

(** * The further properties at sample inputs *)

Import Site.

Lemma director_handler_unreachable_sample :
  @dispatch libs 2000
     (request GET ["movies"; "Mann"] (Some "alice12.jwt") VUndefined) db0
  = Some (Some (Done (json 200 VNull) db0), [Guard; Handler GetMovieByTitle]) /\
  ~ In (Handler GetMovieByDirector) [Guard; Handler GetMovieByTitle].
Proof.
  split; [reflexivity|].
  apply (@director_handler_unreachable libs 2000
           (request GET ["movies"; "Mann"] (Some "alice12.jwt") VUndefined)
           db0 (Some (Done (json 200 VNull) db0))).
  reflexivity.
Defined.

Lemma get_requests_keep_store_sample :
  @dispatch libs 2000
     (request GET ["users"; "bob99"] (Some "alice12.jwt") VUndefined) db0
  = Some (Some (Done (json 200 (toJSON bob)) db0), [Guard; Handler GetUser]) /\
  db0 = db0.
Proof.
  split; [reflexivity|].
  apply (@get_requests_keep_store libs 2000
           (request GET ["users"; "bob99"] (Some "alice12.jwt") VUndefined)
           db0 (json 200 (toJSON bob)) db0 [Guard; Handler GetUser]);
    reflexivity.
Defined.

Lemma user_lookup_by_name_sample :
  @dispatch libs 2000
     (mkRequest GET ["users"; "bob99"] (Some "alice12.jwt") VUndefined ∅ None)
     db0
  = Some (Some (Done {| status := 200; content := Json (toJSON bob) |} db0),
          [Guard; Handler GetUser]) /\
  In bob (users db0) /\
  Username bob = "bob99".
Proof.
  apply (proj1 (proj2 (@user_lookup_by_name libs 2000 db0 alice "users" "bob99"
                         "alice12.jwt" VUndefined ∅ None
                         eq_refl eq_refl ltac:(discriminate))) bob).
  reflexivity.
Defined.

Lemma delete_own_account_sample :
  @dispatch libs 2000
    (mkRequest DELETE ["users"; Username alice] (Some "alice12.jwt")
               VUndefined ∅ None) db0
  = Some (Some (Done (send 200 (Username alice +:+ " was deleted"))
                     (with_users db0 (remove_first (Username alice) (users db0)))),
          [Guard; Handler DeleteUser]) /\
  S (length (remove_first (Username alice) (users db0))) = length (users db0) /\
  (List.NoDup (List.map Username (users db0)) ->
   forall t,
     is_ok (@verify libs jwtSecret t
              (remove_first (Username alice) (users db0)) "alice12.jwt")
     = false).
Proof.
  apply (@delete_own_account libs 2000 db0 alice "users" "alice12.jwt").
  - reflexivity.
  - reflexivity.
  - discriminate.
Defined.

Lemma put_own_profile_sample :
  exists l1 l2,
    users db0 = l1 ++ alice :: l2 /\
    Forall (fun x => Username x <> Username alice) l1 /\
    @dispatch libs 2000
      (mkRequest PUT ["users"; Username alice] (Some "alice12.jwt")
                 email_body ∅ None) db0
    = Some (Some (Done {| status := 200;
                          content := Json (toJSON (change_of email_body alice)) |}
                       (with_users db0 (l1 ++ change_of email_body alice :: l2))),
            [Guard; Validators; Handler PutUser]).
Proof.
  apply (proj1 (@put_own_profile libs 2000 db0 alice "users" "alice12.jwt"
                  email_body ∅ None eq_refl eq_refl ltac:(discriminate))
           (change_of email_body)).
  reflexivity.
Defined.

Lemma put_can_duplicate_username_sample :
  exists db',
    @dispatch libs 2000
      (mkRequest PUT ["users"; Username alice] (Some "alice12.jwt")
                 rename_body ∅ None) db0
    = Some (Some (Done (json 200 (toJSON (change_of rename_body alice))) db'),
            [Guard; Validators; Handler PutUser]) /\
    In bob (users db') /\ In (change_of rename_body alice) (users db') /\
    ~ List.NoDup (List.map Username (users db')).
Proof.
  apply (@put_can_duplicate_username libs 2000 db0 alice bob "users"
           "alice12.jwt" rename_body ∅ None (change_of rename_body)).
  - reflexivity.
  - reflexivity.
  - discriminate.
  - reflexivity.
  - right. left. reflexivity.
  - discriminate.
  - reflexivity.
Defined.

Lemma post_favorite_any_requester_sample :
  exists l1 l2,
    users db0 = l1 ++ bob :: l2 /\
    Forall (fun x => Username x <> "bob99") l1 /\
    @dispatch libs 2000
      (mkRequest POST ["users"; "bob99"; "movies"; "m9"] (Some "alice12.jwt")
                 VUndefined ∅ None) db0
    = Some (Some (Done {| status := 200;
                          content := Json (toJSON (push_of "m9" bob)) |}
                       (with_users db0 (l1 ++ push_of "m9" bob :: l2))),
            [Guard; Handler PostFavorite]).
Proof.
  apply (proj1 (@post_favorite_any_requester libs 2000 db0 alice
                  "users" "bob99" "movies" "m9" "alice12.jwt" VUndefined ∅ None
                  eq_refl eq_refl eq_refl
                  ltac:(discriminate) ltac:(discriminate))
           (push_of "m9") bob); reflexivity.
Defined.


Lemma login_then_access_sample :
  exists res presented,
    @login libs 1000 (login_request "alice12" "Secr3t!") db0 = Done res db0 /\
    status res = 200 /\
    body_member "token" res = VStr presented /\
    @dispatch libs 5000
       (mkRequest GET ["users"] (Some presented) VUndefined ∅ None) db0
    = Some (Some (Done {| status := 200;
                          content := Json (VArr (List.map toJSON (users db0))) |}
                       db0),
            [Guard; Handler GetUsers]).
Proof.
  apply (@login_then_access libs 1000 5000 db0
           (login_request "alice12" "Secr3t!") "alice12" "Secr3t!" "users"
           alice); reflexivity.
Defined.

Lemma disallowed_origin_blocked_sample :
  @app libs registration files 2000 (Some "http://evil.example")
     (request DELETE ["users"; "bob99"] (Some "alice12.jwt") VUndefined) db0
  = Some (Done something_broke db0).
Proof.
  apply (proj2 (@disallowed_origin_blocked libs registration files 2000
                  "http://evil.example"
                  (request DELETE ["users"; "bob99"] (Some "alice12.jwt")
                           VUndefined)
                  db0 ltac:(discriminate)
                  ltac:(simpl; intuition discriminate))).
  reflexivity.
Defined.

Lemma registration_invalid_rejected_sample :
  exists e errors,
    @validationResult registration user_checks
       (request POST ["users"] None (VObj [("Username", VStr "al")]))
    = e :: errors /\
    @post_users registration
       (request POST ["users"] None (VObj [("Username", VStr "al")])) db0
    = Done (json 422 (VObj [("errors", VArr (e :: errors))])) db0.
Proof.
  apply (@registration_invalid_rejected registration).
  left. simpl. lia.
Defined.

Lemma registration_only_when_valid_sample :
  (5 <= String.length "carol7" <= 10)%nat /\
  all_chars is_alnum "carol7" = true /\
  exists newUser,
    users db1 = users db0 ++ [newUser] /\ movies db1 = movies db0 /\
    json 201 (toJSON carol) = json 201 (toJSON newUser).
Proof.
  destruct (@registration_only_when_valid registration
              (request POST ["users"] None carol_body) db0
              (json 201 (toJSON carol)) db1 eq_refl (or_introl eq_refl))
    as (Hlen & Halnum & _ & _ & Hnew).
  split; [exact Hlen|]. split; [exact Halnum | exact Hnew].
Defined.

Lemma registration_duplicate_refused_sample :
  @post_users registration
     (request POST ["users"] None
        (VObj [("Username", VStr "alice12"); ("Password", VStr "other");
               ("Email", VStr "a@example.org")])) db0
  = Done (send 400 ("alice12" +:+ " already exists")) db0.
Proof.
  apply (@registration_duplicate_refused registration
           (request POST ["users"] None
              (VObj [("Username", VStr "alice12"); ("Password", VStr "other");
                     ("Email", VStr "a@example.org")]))
           db0 "alice12" "other" alice); reflexivity.
Defined.

Lemma sample_create_keeps_username (fields : list (string * value))
    (newUser : User) :
  @create_user registration fields = Ok newUser ->
  prop_get "Username" fields = VStr (Username newUser).
Proof.
  cbn [create_user registration].
  destruct (prop_get "Username" fields); try discriminate.
  destruct (prop_get "Password" fields); try discriminate.
  destruct (prop_get "Email" fields); try discriminate.
  now intros [= <-].
Qed.

Lemma registration_keeps_usernames_unique_sample :
  List.NoDup (List.map Username (users db1)).
Proof.
  apply (@registration_keeps_usernames_unique registration
           (request POST ["users"] None carol_body) db0
           (json 201 (toJSON carol)) db1).
  - exact sample_create_keeps_username.
  - exact sample_usernames_unique.
  - reflexivity.
Defined.

Lemma register_then_login_sample :
  exists db' tok,
    @post_users registration (request POST ["users"] None carol_body) db0
    = Done (json 201 (toJSON carol)) db' /\
    users db' = users db0 ++ [carol] /\
    @generateJWTToken libs (toJSON carol) 1000 = Ok tok /\
    @login libs 1000 (login_request "carol7" "pa55word") db'
    = Done {| status := 200;
              content := Json (VObj [("user", toJSON carol);
                                     ("token", VStr (@jwt_encode libs tok))]) |}
           db'.
Proof.
  apply (@register_then_login libs registration 1000
           (request POST ["users"] None carol_body)
           (login_request "carol7" "pa55word") db0 "carol7" "pa55word" carol);
    reflexivity.
Defined.

Lemma uncredentialed_changes_only_by_registration_sample :
  takes POST [Lit "users"] (request POST ["users"] None carol_body) = true /\
  @post_users registration (request POST ["users"] None carol_body) db0
  = Done (json 201 (toJSON carol)) db1.
Proof.
  apply (@uncredentialed_changes_only_by_registration libs registration files
           2000 (Some "http://localhost:1234")
           (request POST ["users"] None carol_body) db0
           (json 201 (toJSON carol)) db1).
  - reflexivity.
  - reflexivity.
  - intros Heq. apply (f_equal (fun d => length (users d))) in Heq.
    discriminate.
Defined.

Lemma token_issued_iff_sample :
  is_ok (@generateJWTToken libs (toJSON alice) 1000) = true /\
  is_ok (@generateJWTToken libs
           (VObj [("Username", VStr "eve"); ("exp", VUndefined)]) 1000)
  = false /\
  is_ok (@generateJWTToken libs
           (VObj [("Username", VStr "eve"); ("nbf", VStr "soon")]) 1000)
  = false.
Proof.
  split; [|split; reflexivity].
  apply (proj2 (@token_issued_iff libs (toJSON alice) 1000)).
  exists (doc_props alice), "alice12".
  repeat split; left; reflexivity.
Defined.

Lemma cors_origin_allows_iff_sample :
  cors_origin (Some "https://seaflix.netlify.app") = Ok true /\
  cors_origin None = Ok true.
Proof.
  split.
  - apply (proj1 (@cors_origin_allows_iff (Some "https://seaflix.netlify.app"))).
    right. right. exists "https://seaflix.netlify.app".
    split; [reflexivity|]. right. right. left. reflexivity.
  - apply (proj1 (@cors_origin_allows_iff None)). left. reflexivity.
Defined.
